(** * Caregiver support demo (app.py): the rule-based analyzer

    A shallow embedding of the analyzer of [app.py]: [normalize],
    [find_matches], [detect_topics], [build_response], and of the
    [if run:] block of the page that guards the call and assembles the
    export text.

    Text.  A Python [str] is modelled as a [string] whose characters are
    read as the code points 0..255; [str.strip], [str.lower], and the
    classes [\s], [\b] of [re] are given on that range as CPython defines
    them.  Fixed texts of the program that hold characters above 255
    (typographic quotes and dashes) are kept as written in the source;
    they are only ever compared and concatenated. *)

From Stdlib Require Import Bool Arith NArith Lia List.
From Stdlib Require Import Ascii String.
From Stdlib Require Import Sorting.Sorted.
Import ListNotations.

Local Open Scope list_scope.
Local Open Scope string_scope.

(** ** Characters *)

Module Char.

Local Open Scope N_scope.

(** [ord(c)] *)
Definition code (c : ascii) : N := N_of_ascii c.

Definition between (lo hi : N) (c : ascii) : bool :=
  (lo <=? code c) && (code c <=? hi).

(** [str.isspace] on one character: what [str.strip()] removes and what
    [\s] matches. *)
Definition is_space (c : ascii) : bool :=
  between 9 13 c || between 28 32 c || (code c =? 133) || (code c =? 160).

Definition is_upper (c : ascii) : bool :=
  between 65 90 c || between 192 214 c || between 216 222 c.

(** [str.lower] on one character. *)
Definition lower (c : ascii) : ascii :=
  if is_upper c then ascii_of_N (code c + 32) else c.

(** [str.isalnum]. *)
Definition is_alnum (c : ascii) : bool :=
  between 48 57 c || between 65 90 c || between 97 122 c
  || (code c =? 170) || between 178 179 c || (code c =? 181)
  || between 185 186 c || between 188 190 c
  || between 192 214 c || between 216 246 c || between 248 255 c.

(** [\w]: alphanumeric or underscore. *)
Definition is_word (c : ascii) : bool :=
  is_alnum c || (code c =? 95).

End Char.

(** ** Strings *)

Fixpoint lower (s : string) : string :=
  match s with
  | EmptyString => EmptyString
  | String c s' => String (Char.lower c) (lower s')
  end.

Fixpoint lstrip (s : string) : string :=
  match s with
  | EmptyString => EmptyString
  | String c s' => if Char.is_space c then lstrip s' else s
  end.

Fixpoint rstrip (s : string) : string :=
  match s with
  | EmptyString => EmptyString
  | String c s' =>
      match rstrip s' with
      | EmptyString => if Char.is_space c then EmptyString else String c EmptyString
      | r => String c r
      end
  end.

(** [s.strip()] *)
Definition strip (s : string) : string := rstrip (lstrip s).

(** [s[:n]] *)
Definition slice_to (n : nat) (s : string) : string := substring 0 n s.

(** [sep.join(ls)] *)
Definition join (sep : string) (ls : list string) : string := concat sep ls.

(** [bool(x)] of a string and of a list: empty is false. *)
Definition truthy_str (s : string) : bool :=
  match s with EmptyString => false | _ => true end.

Definition truthy {A} (l : list A) : bool :=
  match l with [] => false | _ => true end.

(** [l.append(x)] and [l += m] (also [l.extend(m)]), as values. *)
Definition list_append {A} (l : list A) (x : A) : list A := (l ++ [x])%list.

Definition list_extend {A} (l m : list A) : list A := (l ++ m)%list.

(** [x in l] for a list of strings. *)
Definition mem (x : string) (l : list string) : bool :=
  existsb (String.eqb x) l.

(** ** Regular expressions: the part of [re] the pattern tables use *)

Module Re.

Inductive regex : Type :=
| Eps
| Lit (c : ascii)
| Space
| Bound
| Seq (a b : regex)
| Alt (a b : regex)
| Star (a : regex).

(** *** Reading a pattern

    alternation  ::=  sequence ( "|" sequence )*
    sequence     ::=  ( atom "*"? )*
    atom         ::=  "(" alternation ")"  |  "\b"  |  "\s"  |  character

    Every other metacharacter is refused. *)

Definition is_meta (c : ascii) : bool :=
  existsb (Ascii.eqb c)
    ["."%char; "^"%char; "$"%char; "+"%char; "?"%char; "{"%char; "}"%char;
     "["%char; "]"%char; "\"%char; "|"%char; "("%char; ")"%char; "*"%char].

Definition postfix (a : regex) (s : string) : regex * string :=
  match s with
  | String "*" t => (Star a, t)
  | _ => (a, s)
  end.

Fixpoint parse_alt (fuel : nat) (s : string) : option (regex * string) :=
  match fuel with
  | O => None
  | S f =>
      match parse_seq f s with
      | Some (a, String "|" s') =>
          match parse_alt f s' with
          | Some (b, s'') => Some (Alt a b, s'')
          | None => None
          end
      | r => r
      end
  end
with parse_seq (fuel : nat) (s : string) : option (regex * string) :=
  match fuel with
  | O => None
  | S f =>
      match s with
      | EmptyString => Some (Eps, s)
      | String "|" _ => Some (Eps, s)
      | String ")" _ => Some (Eps, s)
      | _ =>
          match parse_atom f s with
          | Some (a, s') =>
              let (a', s'') := postfix a s' in
              match parse_seq f s'' with
              | Some (Eps, s3) => Some (a', s3)
              | Some (b, s3) => Some (Seq a' b, s3)
              | None => None
              end
          | None => None
          end
      end
  end
with parse_atom (fuel : nat) (s : string) : option (regex * string) :=
  match fuel with
  | O => None
  | S f =>
      match s with
      | String "(" s' =>
          match parse_alt f s' with
          | Some (a, String ")" s'') => Some (a, s'')
          | _ => None
          end
      | String "\" (String "b" s') => Some (Bound, s')
      | String "\" (String "s" s') => Some (Space, s')
      | String c s' => if is_meta c then None else Some (Lit c, s')
      | EmptyString => None
      end
  end.

(** [re.compile(pat)]; [None] stands for [re.error]. *)
Definition compile (pat : string) : option regex :=
  match parse_alt (3 * String.length pat + 3) pat with
  | Some (r, EmptyString) => Some r
  | _ => None
  end.

(** *** Matching

    The matcher walks the text with the character before the current
    position at hand; [k] is what has to match after [r].  All
    alternatives are tried, so the result says whether some match
    exists. *)

(** A literal under [re.IGNORECASE]. *)
Definition lit_eq (c d : ascii) : bool :=
  Ascii.eqb (Char.lower c) (Char.lower d).

Definition word_before (prev : option ascii) : bool :=
  match prev with Some c => Char.is_word c | None => false end.

Definition word_here (s : string) : bool :=
  match s with String c _ => Char.is_word c | EmptyString => false end.

(** [\b]: exactly one side of the position is a word character. *)
Definition at_boundary (prev : option ascii) (s : string) : bool :=
  xorb (word_before prev) (word_here s).

Fixpoint matches (r : regex) (prev : option ascii) (s : string)
         (k : option ascii -> string -> bool) {struct r} : bool :=
  match r with
  | Eps => k prev s
  | Lit c =>
      match s with
      | String d s' => if lit_eq c d then k (Some d) s' else false
      | EmptyString => false
      end
  | Space =>
      match s with
      | String d s' => if Char.is_space d then k (Some d) s' else false
      | EmptyString => false
      end
  | Bound => if at_boundary prev s then k prev s else false
  | Seq a b => matches a prev s (fun p' s' => matches b p' s' k)
  | Alt a b => if matches a prev s k then true else matches b prev s k
  | Star a =>
      (fix loop (n : nat) (prev : option ascii) (s : string) : bool :=
         match n with
         | O => k prev s
         | S n' =>
             if matches a prev s
                  (fun p' s' =>
                     if (String.length s' <? String.length s)%nat
                     then loop n' p' s' else false)
             then true
             else k prev s
         end) (String.length s) prev s
  end.

Definition match_here (r : regex) (prev : option ascii) (s : string) : bool :=
  matches r prev s (fun _ _ => true).

(** Every start position, left to right, up to the first match. *)
Fixpoint scan (r : regex) (prev : option ascii) (s : string) : bool :=
  if match_here r prev s then true
  else match s with
       | String c s' => scan r (Some c) s'
       | EmptyString => false
       end.

(** [bool(re.search(pat, text, flags=re.IGNORECASE))] *)
Definition search (pat text : string) : bool :=
  match compile pat with
  | Some r => scan r None text
  | None => false
  end.

End Re.

(** ** The rule tables of app.py *)

Definition EMERGENCY_PATTERNS : list (string * string) :=
  [ ("\b(chest pain|pressure in chest|heart attack)\b", "Possible chest-pain emergency");
    ("\b(trouble breathing|can't breathe|cannot breathe|shortness of breath|turning blue)\b", "Breathing emergency");
    ("\b(stroke|face droop|slurred speech|arm weakness|FAST)\b", "Possible stroke signs");
    ("\b(unconscious|unresponsive|won't wake|not waking)\b", "Unresponsive person");
    ("\b(seizure|convulsion)\b", "Seizure/convulsion");
    ("\b(heavy bleeding|won't stop bleeding|bleeding a lot)\b", "Severe bleeding");
    ("\b(suicidal|kill myself|end my life|self harm)\b", "Self-harm risk");
    ("\b(overdose|took too many pills|poisoned)\b", "Possible overdose/poisoning") ].

Definition URGENT_PATTERNS : list (string * string) :=
  [ ("\b(fever\s*(over|above)\s*103|fever\s*103)\b", "High fever");
    ("\b(new confusion|sudden confusion|delirium|not making sense)\b", "Sudden confusion");
    ("\b(fall|fell|hit (their|her|his) head|head injury)\b", "Fall or head impact");
    ("\b(severe pain|worst pain)\b", "Severe pain");
    ("\b(dehydrated|no urine|not peeing|dry mouth)\b", "Possible dehydration") ].

Definition MEDICATION_MENTION : string :=
  "\b(med|meds|medicine|medication|pill|dose|dosage|prescription|refill)\b".

(** The dict keeps its keys in the order they are written; each key
    occurs once. *)
Definition TOPIC_KEYWORDS : list (string * list string) :=
  [ ("agitation_or_anxiety", ["\b(agitated|agitation|anxious|panic|restless|irritable)\b"]);
    ("sleep", ["\b(can't sleep|insomnia|sleeping all day|sleepy)\b"]);
    ("pain", ["\b(pain|hurts|ache|aching)\b"]);
    ("memory_or_confusion", ["\b(forgetful|memory|confused|confusion|dementia|delirium)\b"]);
    ("eating_drinking", ["\b(not eating|not drinking|won't eat|won't drink|loss of appetite)\b"]);
    ("caregiver_stress", ["\b(burnout|overwhelmed|exhausted|can't do this|no support)\b"]);
    ("safety", ["\b(wandering|left the stove on|unsafe|falls risk|choking)\b"]);
    ("mood", ["\b(depressed|hopeless|crying|sad)\b"]) ].

Definition GENERAL_STEPS : list string :=
  [ "Make sure the person is **safe right now** (remove hazards, ensure supervision if needed).";
    "Gather **facts**: when it started, what changed, triggers, what helped/worsened it.";
    "If symptoms are **new, severe, or worsening**, contact a licensed clinician for guidance.";
    "If there’s any **immediate danger**, call your local emergency number." ].

(** ** The fixed lines build_response appends *)

Definition EMERGENCY_LINES : list string :=
  [ "**Call your local emergency number now** (e.g., 911 in the U.S.).";
    "If it’s safe, stay with the person and keep them comfortable until help arrives.";
    "If you can, note **when symptoms started** and any key history to share with responders." ].

Definition URGENT_LINES : list string :=
  [ "Consider calling a licensed clinician/nurse line **today** for guidance, especially if symptoms are new or worsening.";
    "If there was a **fall/head impact**, monitor closely and seek professional guidance—especially for new symptoms." ].

Definition MEDICATION_NOTE : string :=
  "**Medication note:** This app cannot advise on medicines. **Do not start/stop/change doses** based on this tool. Contact a **pharmacist or prescriber** for medication questions or side effects.".

Definition AGITATION_BLOCK : list string :=
  [ "**Agitation/anxiety support (general):**";
    "- Reduce stimulation (lower noise/light), offer calm reassurance, and keep your voice steady.";
    "- Check basic needs: hunger, thirst, toileting, temperature comfort.";
    "- Try a simple grounding activity: slow breathing together, familiar music, short walk if safe." ].

Definition SLEEP_BLOCK : list string :=
  [ "**Sleep support (general):**";
    "- Keep a consistent routine (wake time, light exposure in the morning).";
    "- Limit caffeine late in the day and reduce screen/light at night.";
    "- If sudden major sleep changes occur, consider discussing with a clinician." ].

Definition PAIN_BLOCK : list string :=
  [ "**Pain support (general):**";
    "- Ask where it hurts and what makes it better/worse; note severity and timing.";
    "- Use comfort measures (rest, positioning, gentle heat/cold if appropriate and safe).";
    "- New or severe pain warrants professional guidance." ].

Definition MEMORY_BLOCK : list string :=
  [ "**Confusion/memory changes (general):**";
    "- Use simple, reassuring cues; avoid arguing; offer one step at a time.";
    "- Note if confusion is **new/sudden**—that can be urgent and worth clinician input." ].

Definition EATING_BLOCK : list string :=
  [ "**Eating/drinking support (general):**";
    "- Offer small sips/snacks more frequently and make food easy to chew/swallow.";
    "- Watch for dehydration signs (very dark urine, dizziness, very dry mouth) and seek guidance if concerned." ].

Definition SAFETY_BLOCK : list string :=
  [ "**Safety support (general):**";
    "- Reduce fall risks (clear pathways, good lighting, assistive devices if already used).";
    "- If wandering risk: consider supervision, door alarms, ID bracelet, and a plan for if they leave." ].

Definition MOOD_BLOCK : list string :=
  [ "**Mood support (general):**";
    "- Listen and validate feelings; try gentle structure and social connection if welcome.";
    "- If you notice any self-harm language or intent, treat it as urgent and seek immediate help." ].

Definition CAREGIVER_BLOCK : list string :=
  [ "**Caregiver support (you matter too):**";
    "- If possible, take a short break (even 5–10 minutes) and hydrate/eat.";
    "- Ask someone specific for help (e.g., “Can you sit with them for 30 minutes today?”).";
    "- Consider local respite, caregiver groups, or talking with a clinician/therapist for support." ].

Definition DIVIDER : string := "---".

Definition GENERAL_HEADER : string := "**Helpful next steps (general):**".

Definition TRACKING : list string :=
  [ "- When it started / how it changed over time";
    "- Triggers (time of day, meals, new stressors, activity)";
    "- What helped (calm environment, hydration, rest, distraction)";
    "- Sleep, food, fluids, toileting changes";
    "- Any new safety risks (falls, wandering, choking)" ].

Definition EMERGENCY_LABEL : string := "EMERGENCY — act now".
Definition URGENT_LABEL : string := "URGENT — contact a clinician soon".
Definition NON_URGENT_LABEL : string := "NON-URGENT — supportive steps & monitoring".

(** The line feed. *)
Definition nl : string := String "010"%char EmptyString.

(** The clinician message is one f-string; these are its text before and
    after the one replacement field. *)
Definition CLINICIAN_HEAD : string :=
  join nl [ "Hello, I’m caring for someone and I’m concerned about the following:";
            "";
            "- What happened: " ].

Definition CLINICIAN_TAIL : string :=
  join nl [ "";
            "- When it started / timeline:";
            "- Severity (mild/moderate/severe) and what has changed:";
            "- What we tried and what helped:";
            "- Any safety concerns (falls, breathing, confusion, etc.):";
            "";
            "Could you advise on next steps and whether we should be seen urgently?";
            "" ].

(** ** The analyzer *)

Definition normalize (text : string) : string := lower (strip text).

(** The loop of find_matches: one [re.search] per rule, the label appended
    on a hit. *)
Definition find_matches (patterns : list (string * string)) (text : string)
  : list string :=
  fold_left
    (fun hits rule =>
       let '(pat, label) := rule in
       if Re.search pat text then list_append hits label else hits)
    patterns [].

(** The inner loop of detect_topics over the variants of one topic, with
    its [break].  The first component lists the variants [re.search] was
    called on, in order; the second says whether the topic is appended. *)
Fixpoint try_variants (pats : list string) (text : string)
  : list string * bool :=
  match pats with
  | [] => ([], false)
  | pat :: rest =>
      if Re.search pat text then ([pat], true)
      else let '(tested, hit) := try_variants rest text in (pat :: tested, hit)
  end.

(** The outer loop of detect_topics over [table.items()]: the list
    [topics] after the loop. *)
Definition collect_topics (table : list (string * list string)) (text : string)
  : list string :=
  fold_left
    (fun topics entry =>
       let '(topic, pats) := entry in
       if snd (try_variants pats text) then list_append topics topic else topics)
    table [].

(** [set(l)]: each element once. *)
Definition set_of (l : list string) : list string := nodup string_dec l.

(** [sorted(l)] on strings: ascending by code point. *)
Fixpoint insert_sorted (x : string) (l : list string) : list string :=
  match l with
  | [] => [x]
  | y :: l' => if (x <=? y)%string then x :: l else y :: insert_sorted x l'
  end.

Definition sorted (l : list string) : list string :=
  fold_right insert_sorted [] l.

Definition detect_topics (text : string) : list string :=
  sorted (set_of (collect_topics TOPIC_KEYWORDS text)).

Record response : Type := mk_response {
  urgency : string;
  urgency_color : string;
  emergency_hits : list string;
  urgent_hits : list string;
  topics : list string;
  mentions_meds : bool;
  suggestions : list string;
  tracking : list string;
  clinician_msg : string
}.

Definition build_response (user_text : string) : response :=
  let t := normalize user_text in
  let emergency_hits := find_matches EMERGENCY_PATTERNS t in
  let urgent_hits := find_matches URGENT_PATTERNS t in
  let topics := detect_topics t in
  let mentions_meds := Re.search MEDICATION_MENTION t in
  let urgency :=
    if truthy emergency_hits then EMERGENCY_LABEL
    else if truthy urgent_hits then URGENT_LABEL
    else NON_URGENT_LABEL in
  let urgency_color :=
    if truthy emergency_hits then "red"
    else if truthy urgent_hits then "orange"
    else "green" in
  let suggestions : list string := [] in
  let suggestions :=
    if truthy emergency_hits then list_extend suggestions EMERGENCY_LINES
    else suggestions in
  let suggestions :=
    if truthy urgent_hits && negb (truthy emergency_hits)
    then list_extend suggestions URGENT_LINES else suggestions in
  let suggestions :=
    if mentions_meds then list_append suggestions MEDICATION_NOTE
    else suggestions in
  let suggestions :=
    if mem "agitation_or_anxiety" topics
    then list_extend suggestions AGITATION_BLOCK else suggestions in
  let suggestions :=
    if mem "sleep" topics
    then list_extend suggestions SLEEP_BLOCK else suggestions in
  let suggestions :=
    if mem "pain" topics
    then list_extend suggestions PAIN_BLOCK else suggestions in
  let suggestions :=
    if mem "memory_or_confusion" topics
    then list_extend suggestions MEMORY_BLOCK else suggestions in
  let suggestions :=
    if mem "eating_drinking" topics
    then list_extend suggestions EATING_BLOCK else suggestions in
  let suggestions :=
    if mem "safety" topics
    then list_extend suggestions SAFETY_BLOCK else suggestions in
  let suggestions :=
    if mem "mood" topics
    then list_extend suggestions MOOD_BLOCK else suggestions in
  let suggestions :=
    if mem "caregiver_stress" topics
    then list_extend suggestions CAREGIVER_BLOCK else suggestions in
  let suggestions :=
    list_extend suggestions
      (list_extend [DIVIDER; GENERAL_HEADER]
         (map (fun x => "- " ++ x) GENERAL_STEPS)) in
  let clinician_msg :=
    CLINICIAN_HEAD ++ slice_to 400 (strip user_text) ++ CLINICIAN_TAIL in
  {| urgency := urgency;
     urgency_color := urgency_color;
     emergency_hits := emergency_hits;
     urgent_hits := urgent_hits;
     topics := topics;
     mentions_meds := mentions_meds;
     suggestions := suggestions;
     tracking := TRACKING;
     clinician_msg := clinician_msg |}.

(** ** The page: the [if run:] block *)

(** The lines of the export, as the block appends them; [now] is
    [datetime.now().isoformat(timespec='seconds')]. *)
Definition export_text (user_text now : string) (result : response)
  : list string :=
  let export_text : list string := [] in
  let export_text := list_append export_text "Caregiver Support (Rule-Based Demo) — Export" in
  let export_text := list_append export_text ("Generated: " ++ now) in
  let export_text := list_append export_text "" in
  let export_text := list_append export_text "USER INPUT:" in
  let export_text := list_append export_text (strip user_text) in
  let export_text := list_append export_text "" in
  let export_text := list_append export_text ("URGENCY: " ++ urgency result) in
  let export_text :=
    if truthy (emergency_hits result)
    then list_append export_text ("EMERGENCY FLAGS: " ++ join ", " (emergency_hits result))
    else export_text in
  let export_text :=
    if truthy (urgent_hits result)
    then list_append export_text ("URGENT FLAGS: " ++ join ", " (urgent_hits result))
    else export_text in
  let export_text :=
    if truthy (topics result)
    then list_append export_text ("TOPICS: " ++ join ", " (topics result))
    else export_text in
  let export_text := list_append export_text "" in
  let export_text := list_append export_text "SUGGESTIONS:" in
  let export_text :=
    fold_left
      (fun acc item =>
         if negb (item =? DIVIDER) then list_append acc ("- " ++ item) else acc)
      (suggestions result) export_text in
  let export_text := list_append export_text "" in
  let export_text := list_append export_text "TRACKING CHECKLIST:" in
  let export_text := list_extend export_text (tracking result) in
  let export_text := list_append export_text "" in
  let export_text := list_append export_text "CLINICIAN MESSAGE TEMPLATE:" in
  let export_text := list_append export_text (clinician_msg result) in
  export_text.

(** What the block leaves on the page: the warning, or the result with
    the data of the download button. *)
Inductive outcome : Type :=
| Warned (message : string)
| Generated (result : response) (download : string).

Definition on_run (user_text now : string) : outcome :=
  if negb (truthy_str (strip user_text))
  then Warned "Please enter a brief description first."
  else
    let result := build_response user_text in
    Generated result (join nl (export_text user_text now result)).

Definition scenario_1 : string :=
  "Mom fell yesterday and seems more confused today. She won't eat much and is agitated in the evening.".


(** ** The page: what the run block shows *)

(** The calls of the page that put something on the screen. *)
Inductive call : Type :=
| st_error (body : string)
| st_warning (body : string)
| st_success (body : string)
| st_markdown (body : string)
| st_write (body : string)
| st_subheader (body : string)
| st_divider
| st_code (body language : string)
| st_expander (label : string) (inside : call)
| st_download_button (label data file_name mime : string).

(** [s.startswith(p)] *)
Definition startswith (p s : string) : bool := prefix p s.

(** The [else] branch of the run block up to the export: banner, matched
    flags, suggestions, the two expanders. *)
Definition show_result (result : response) : list call :=
  let calls : list call := [] in
  let calls :=
    if urgency_color result =? "red"
    then list_append calls (st_error (urgency result))
    else if urgency_color result =? "orange"
    then list_append calls (st_warning (urgency result))
    else list_append calls (st_success (urgency result)) in
  let calls :=
    if truthy (emergency_hits result)
    then list_append
           (list_append calls (st_markdown "**Matched emergency flags:**"))
           (st_write ("• " ++ join (nl ++ "• ") (emergency_hits result)))
    else calls in
  let calls :=
    if truthy (urgent_hits result)
    then list_append
           (list_append calls (st_markdown "**Matched urgent flags:**"))
           (st_write ("• " ++ join (nl ++ "• ") (urgent_hits result)))
    else calls in
  let calls :=
    if truthy (topics result)
    then list_append
           (list_append calls (st_markdown "**Detected topics (keyword-based):**"))
           (st_write (join ", " (topics result)))
    else calls in
  let calls :=
    list_append calls (st_subheader "Suggested next steps (non-diagnostic)") in
  let calls :=
    fold_left
      (fun calls item =>
         if item =? "---" then list_append calls st_divider
         else list_append calls
                (st_markdown
                   (if negb (startswith "**" item) then "- " ++ item
                    else item)))
      (suggestions result) calls in
  let calls :=
    list_append calls
      (st_expander "What to track for a clinician or caregiver team"
         (st_markdown (join nl (tracking result)))) in
  let calls :=
    list_append calls
      (st_expander "Draft message you can copy to a clinician (editable)"
         (st_code (clinician_msg result) "text")) in
  calls.

(** The whole run block as the calls it makes. *)
Definition run_block (user_text now : string) : list call :=
  if negb (truthy_str (strip user_text))
  then [st_warning "Please enter a brief description first."]
  else
    let result := build_response user_text in
    list_append (show_result result)
      (st_download_button "Download these suggestions as a text file"
         (join nl (export_text user_text now result))
         "caregiver_support_export.txt" "text/plain").

(** ** The care notes: the list kept in the session *)

Record log_entry : Type := mk_log_entry {
  timestamp : string;
  what_happened : string;
  triggers_context : string;
  what_helped : string;
  notes : string
}.


(** The button "Clear all log entries". *)
Definition clear_entries (care_log : list log_entry) : list log_entry := [].

(** * Notions used in the statements *)

(** A block of lines that is emitted or not. *)
Definition block (b : bool) (l : list string) : list string :=
  if b then l else [].

(** The test of one rule of a table in find_matches. *)
Definition rule_hit (text : string) (rule : string * string) : bool :=
  Re.search (fst rule) text.

(** At least one rule of the table matches the text. *)
Definition some_rule_matches (patterns : list (string * string)) (text : string)
  : Prop :=
  Exists (fun rule => Re.search (fst rule) text = true) patterns.

(** [[f"- {x}" for x in l]] *)
Definition bullets (l : list string) : list string :=
  map (fun x => "- " ++ x) l.

(** The closing block: divider, header, general steps. *)
Definition GENERAL_BLOCK : list string :=
  DIVIDER :: GENERAL_HEADER :: bullets GENERAL_STEPS.

(** Everything put before the divider. *)
Definition before_divider (em ur meds : bool) (topics : list string)
  : list string :=
  (block em EMERGENCY_LINES
   ++ block (ur && negb em) URGENT_LINES
   ++ block meds [MEDICATION_NOTE]
   ++ block (mem "agitation_or_anxiety" topics) AGITATION_BLOCK
   ++ block (mem "sleep" topics) SLEEP_BLOCK
   ++ block (mem "pain" topics) PAIN_BLOCK
   ++ block (mem "memory_or_confusion" topics) MEMORY_BLOCK
   ++ block (mem "eating_drinking" topics) EATING_BLOCK
   ++ block (mem "safety" topics) SAFETY_BLOCK
   ++ block (mem "mood" topics) MOOD_BLOCK
   ++ block (mem "caregiver_stress" topics) CAREGIVER_BLOCK)%list.

(** All lines of the conditional blocks. *)
Definition every_block_line : list string :=
  (EMERGENCY_LINES ++ URGENT_LINES ++ [MEDICATION_NOTE]
   ++ AGITATION_BLOCK ++ SLEEP_BLOCK ++ PAIN_BLOCK ++ MEMORY_BLOCK
   ++ EATING_BLOCK ++ SAFETY_BLOCK ++ MOOD_BLOCK ++ CAREGIVER_BLOCK)%list.

(** The three urgency tiers. *)
Inductive tier : Type := EMERGENCY | URGENT | NON_URGENT.

Definition tier_label (x : tier) : string :=
  match x with
  | EMERGENCY => EMERGENCY_LABEL
  | URGENT => URGENT_LABEL
  | NON_URGENT => NON_URGENT_LABEL
  end.

Definition tier_color (x : tier) : string :=
  match x with
  | EMERGENCY => "red"
  | URGENT => "orange"
  | NON_URGENT => "green"
  end.

(** A response carries tier [x]: its label and its colour tag. *)
Definition has_tier (r : response) (x : tier) : Prop :=
  urgency r = tier_label x /\ urgency_color r = tier_color x.

(** The tier read back from the label of a response. *)
Definition response_tier (r : response) : tier :=
  if urgency r =? EMERGENCY_LABEL then EMERGENCY
  else if urgency r =? URGENT_LABEL then URGENT
  else NON_URGENT.

(** The order in which the topic blocks are emitted. *)
Definition EMISSION_ORDER : list string :=
  [ "agitation_or_anxiety"; "sleep"; "pain"; "memory_or_confusion";
    "eating_drinking"; "safety"; "mood"; "caregiver_stress" ].

Definition topic_block (topic : string) : list string :=
  if topic =? "agitation_or_anxiety" then AGITATION_BLOCK
  else if topic =? "sleep" then SLEEP_BLOCK
  else if topic =? "pain" then PAIN_BLOCK
  else if topic =? "memory_or_confusion" then MEMORY_BLOCK
  else if topic =? "eating_drinking" then EATING_BLOCK
  else if topic =? "safety" then SAFETY_BLOCK
  else if topic =? "mood" then MOOD_BLOCK
  else if topic =? "caregiver_stress" then CAREGIVER_BLOCK
  else [].

(** The suggestion sequence as the block list describes it: by tier, by
    medication mention, by matched topic in emission order, then the
    closing block. *)
Definition assembled_in_order (x : tier) (meds : bool) (matched : list string)
  : list string :=
  ((match x with EMERGENCY => EMERGENCY_LINES | _ => [] end)
   ++ (match x with URGENT => URGENT_LINES | _ => [] end)
   ++ (if meds then [MEDICATION_NOTE] else [])
   ++ flat_map topic_block (filter (fun t => mem t matched) EMISSION_ORDER)
   ++ [DIVIDER; GENERAL_HEADER]
   ++ bullets GENERAL_STEPS)%list.

(** [x] occurs in [s] as a run of consecutive characters. *)
Definition occurs_in (x s : string) : Prop :=
  exists pre post : string, s = pre ++ x ++ post.

(** [x in s] on strings. *)
Fixpoint contains (x s : string) : bool :=
  if prefix x s then true
  else match s with
       | String _ s' => contains x s'
       | EmptyString => false
       end.

(** The items the export loop writes: all but the divider. *)
Definition exported (item : string) : bool := negb (item =? DIVIDER).

(** Strictly before, in the order of strings by character code. *)
Definition str_lt (a b : string) : Prop := (a <? b) = true.

(** What the inner loop may leave behind: it stopped on the first variant
    that matches, having tested the variants up to that one, or it tested
    them all and none matches. *)
Definition stops_at_first_hit (pats : list string) (text : string)
           (tested : list string) (hit : bool) : Prop :=
  (hit = true
   /\ exists (before : list string) (pat : string) (after : list string),
       pats = (before ++ pat :: after)%list
       /\ tested = (before ++ [pat])%list
       /\ Re.search pat text = true
       /\ Forall (fun p => Re.search p text = false) before)
  \/ (hit = false
      /\ tested = pats
      /\ Forall (fun p => Re.search p text = false) pats).

(** Whether the inner loop appends the topic of an entry. *)
Definition topic_hit (text : string) (entry : string * list string) : bool :=
  snd (try_variants (snd entry) text).

(** Whitespace only. *)
Fixpoint all_space (s : string) : bool :=
  match s with
  | EmptyString => true
  | String c s' => if Char.is_space c then all_space s' else false
  end.

(** Same length, and position by position the same character up to
    letter case. *)
Fixpoint same_letters (a b : string) : bool :=
  match a, b with
  | EmptyString, EmptyString => true
  | String c a', String d b' =>
      if Ascii.eqb (Char.lower c) (Char.lower d) then same_letters a' b'
      else false
  | _, _ => false
  end.

(** [b] is [a] with other whitespace around it and other letter case. *)
Definition variation (a b : string) : Prop :=
  exists la ca ra lb cb rb : string,
    a = la ++ ca ++ ra
    /\ b = lb ++ cb ++ rb
    /\ all_space la = true /\ all_space ra = true
    /\ all_space lb = true /\ all_space rb = true
    /\ same_letters ca cb = true.

(** The first and the last character of a string, if any. *)
Definition first_char (s : string) : option ascii :=
  match s with
  | EmptyString => None
  | String c _ => Some c
  end.

Fixpoint last_char (s : string) : option ascii :=
  match s with
  | EmptyString => None
  | String c EmptyString => Some c
  | String _ s' => last_char s'
  end.

(** An end of a string that is not whitespace (or is not there). *)
Definition clean_end (end_char : option ascii) : bool :=
  match end_char with
  | Some c => negb (Char.is_space c)
  | None => true
  end.

(** A field of a log entry carries no whitespace at its ends. *)
Definition trimmed (s : string) : Prop :=
  clean_end (first_char s) = true /\ clean_end (last_char s) = true.





(** The conditional blocks of build_response with their conditions, in
    the order of the program. *)
Definition guarded (em ur meds : bool) (tp : list string)
  : list (bool * list string) :=
  [ (em, EMERGENCY_LINES);
    (ur && negb em, URGENT_LINES);
    (meds, [MEDICATION_NOTE]);
    (mem "agitation_or_anxiety" tp, AGITATION_BLOCK);
    (mem "sleep" tp, SLEEP_BLOCK);
    (mem "pain" tp, PAIN_BLOCK);
    (mem "memory_or_confusion" tp, MEMORY_BLOCK);
    (mem "eating_drinking" tp, EATING_BLOCK);
    (mem "safety" tp, SAFETY_BLOCK);
    (mem "mood" tp, MOOD_BLOCK);
    (mem "caregiver_stress" tp, CAREGIVER_BLOCK) ].

(** The lines of the blocks whose condition holds. *)
Definition guarded_blocks (bs : list (bool * list string)) : list string :=
  flat_map (fun p => block (fst p) (snd p)) bs.

(** The conditions and blocks of a response. *)
Definition response_blocks (r : response) : list (bool * list string) :=
  guarded (truthy (emergency_hits r)) (truthy (urgent_hits r))
    (mentions_meds r) (topics r).





(** The lines of the export that list the matched flags and topics. *)
Definition export_flags (r : response) : list string :=
  let em := "EMERGENCY FLAGS: " ++ join ", " (emergency_hits r) in
  let ur := "URGENT FLAGS: " ++ join ", " (urgent_hits r) in
  let tp := "TOPICS: " ++ join ", " (topics r) in
  (block (truthy (emergency_hits r)) [em]
   ++ block (truthy (urgent_hits r)) [ur]
   ++ block (truthy (topics r)) [tp])%list.

(** The export up to the matched flags, and from the tracking checklist
    on. *)
Definition export_head (user_text now : string) (r : response) : list string :=
  let generated := "Generated: " ++ now in
  let urgency_line := "URGENCY: " ++ urgency r in
  [ "Caregiver Support (Rule-Based Demo) — Export"; generated; "";
    "USER INPUT:"; strip user_text; ""; urgency_line ].

Definition export_tail (r : response) : list string :=
  ("" :: "TRACKING CHECKLIST:" :: tracking r
   ++ [ ""; "CLINICIAN MESSAGE TEMPLATE:"; clinician_msg r ])%list.

(** Every pattern the program searches for. *)
Definition all_patterns : list string :=
  (map fst EMERGENCY_PATTERNS ++ map fst URGENT_PATTERNS
   ++ [MEDICATION_MENTION] ++ flat_map snd TOPIC_KEYWORDS)%list.

(** * Properties *)

(** ** The pattern tables are well formed *)

(** [re.compile] accepts every pattern of the program, so no search
    raises. *)
Lemma patterns_compile :
  Forall (fun pat => Re.compile pat <> None) all_patterns.
Proof.
  repeat constructor; vm_compute; discriminate.
Qed.

(** ** Lists built by appending *)

Lemma extend_if (b : bool) (s l : list string) :
  (if b then list_extend s l else s) = (s ++ block b l)%list.
Proof.
  destruct b; unfold list_extend, block; [reflexivity | now rewrite app_nil_r].
Qed.

Lemma append_if (b : bool) (s : list string) (x : string) :
  (if b then list_append s x else s) = (s ++ block b [x])%list.
Proof.
  destruct b; unfold list_append, block; [reflexivity | now rewrite app_nil_r].
Qed.

Lemma in_block (b : bool) (x : string) (l : list string) :
  In x (block b l) <-> b = true /\ In x l.
Proof.
  destruct b; simpl; intuition congruence.
Qed.

Lemma mem_In (x : string) (l : list string) : mem x l = true <-> In x l.
Proof.
  unfold mem. rewrite existsb_exists. split.
  - intros [y [Hy E]]. apply String.eqb_eq in E. now subst.
  - intros H. exists x. split; [assumption | apply String.eqb_refl].
Qed.

Lemma mem_false (x : string) (l : list string) : mem x l = false -> ~ In x l.
Proof.
  intros E H. apply mem_In in H. congruence.
Qed.

Lemma truthy_nonempty {A} (l : list A) : truthy l = true <-> l <> [].
Proof.
  destruct l; simpl; split; congruence.
Qed.

(** ** find_matches *)

Lemma find_matches_acc (patterns : list (string * string)) (text : string) :
  forall acc,
    fold_left
      (fun hits rule =>
         let '(pat, label) := rule in
         if Re.search pat text then list_append hits label else hits)
      patterns acc
    = (acc ++ map snd (filter (rule_hit text) patterns))%list.
Proof.
  induction patterns as [| [pat label] rest IH]; intros acc; simpl.
  - now rewrite app_nil_r.
  - rewrite IH. unfold rule_hit at 2. simpl.
    destruct (Re.search pat text); [| reflexivity].
    unfold list_append. simpl. now rewrite <- app_assoc.
Qed.

(** The labels of the rules that hit, in table order. *)
Lemma find_matches_filter (patterns : list (string * string)) (text : string) :
  find_matches patterns text = map snd (filter (rule_hit text) patterns).
Proof.
  unfold find_matches. now rewrite find_matches_acc.
Qed.

Lemma find_matches_truthy (patterns : list (string * string)) (text : string) :
  truthy (find_matches patterns text) = true <-> some_rule_matches patterns text.
Proof.
  rewrite find_matches_filter. unfold some_rule_matches.
  induction patterns as [| rule rest IH]; simpl.
  - split; [discriminate | intros H; inversion H].
  - unfold rule_hit at 1. destruct (Re.search (fst rule) text) eqn:E; simpl.
    + split; [intros _; now constructor | reflexivity].
    + rewrite IH. split.
      * intros H. now apply Exists_cons_tl.
      * intros H. inversion H; subst; [congruence | assumption].
Qed.

(** ** The suggestion list as a sequence of blocks *)

Lemma suggestions_blocks (user_text : string) :
  let r := build_response user_text in
  suggestions r
  = (before_divider (truthy (emergency_hits r)) (truthy (urgent_hits r))
       (mentions_meds r) (topics r)
     ++ GENERAL_BLOCK)%list.
Proof.
  unfold build_response; cbn [suggestions emergency_hits urgent_hits
                               mentions_meds topics].
  rewrite !extend_if, !append_if.
  unfold list_extend, before_divider, GENERAL_BLOCK, bullets.
  cbn [app]. rewrite <- !app_assoc. reflexivity.
Qed.

Lemma in_before_divider (x : string) (em ur meds : bool) (tp : list string) :
  In x (before_divider em ur meds tp) -> In x every_block_line.
Proof.
  unfold before_divider, every_block_line.
  rewrite !in_app_iff, !in_block. tauto.
Qed.

(** Closes a goal with a hypothesis [In x l] for fixed [x] and [l] that
    does not hold. *)
Ltac absurd_member :=
  match goal with
  | H : In ?x ?l |- _ =>
      exfalso; revert H; apply mem_false; vm_compute; reflexivity
  end.

Lemma divider_not_before (em ur meds : bool) (tp : list string) :
  ~ In DIVIDER (before_divider em ur meds tp).
Proof.
  intros H. apply in_before_divider in H. absurd_member.
Qed.

(** ** Urgency tiers *)

Lemma response_tier_hits (user_text : string) :
  let r := build_response user_text in
  response_tier r
  = if truthy (emergency_hits r) then EMERGENCY
    else if truthy (urgent_hits r) then URGENT
    else NON_URGENT.
Proof.
  unfold build_response, response_tier;
    cbn [urgency emergency_hits urgent_hits].
  destruct (truthy (find_matches EMERGENCY_PATTERNS _));
    [| destruct (truthy (find_matches URGENT_PATTERNS _))]; reflexivity.
Qed.

Lemma response_has_its_tier (user_text : string) :
  has_tier (build_response user_text) (response_tier (build_response user_text)).
Proof.
  rewrite response_tier_hits.
  unfold has_tier, build_response;
    cbn [urgency urgency_color emergency_hits urgent_hits].
  destruct (truthy (find_matches EMERGENCY_PATTERNS _));
    [| destruct (truthy (find_matches URGENT_PATTERNS _))];
    split; reflexivity.
Qed.

(** C1.  The tier of the response of [build_response] is EMERGENCY exactly
    when some emergency rule matches the normalized text, URGENT exactly
    when no emergency rule and some urgent rule matches, and NON_URGENT
    exactly when neither does; the label and the colour tag are those of
    that tier.  Topics and the medication mention do not occur in the
    conditions. *)
Theorem urgency_tier_by_precedence :
  forall user_text : string,
    let r := build_response user_text in
    let em := some_rule_matches EMERGENCY_PATTERNS (normalize user_text) in
    let ur := some_rule_matches URGENT_PATTERNS (normalize user_text) in
    has_tier r (response_tier r)
    /\ (response_tier r = EMERGENCY <-> em)
    /\ (response_tier r = URGENT <-> ~ em /\ ur)
    /\ (response_tier r = NON_URGENT <-> ~ em /\ ~ ur).
Proof.
  intros user_text r em ur.
  split; [apply response_has_its_tier |].
  unfold r. rewrite response_tier_hits.
  unfold em, ur. rewrite <- !find_matches_truthy.
  unfold build_response; cbn [emergency_hits urgent_hits].
  destruct (truthy (find_matches EMERGENCY_PATTERNS _));
    [| destruct (truthy (find_matches URGENT_PATTERNS _))];
    repeat split; intros; try discriminate; try tauto; intuition congruence.
Qed.

(** ** The medication guardrail *)

(** C5.  The medication note is among the suggestions exactly when the
    medication pattern matches the normalized text, whatever the tier; an
    EMERGENCY input that mentions a pill still gets it. *)
Theorem medication_note_iff_mentioned :
  (forall user_text : string,
      In MEDICATION_NOTE (suggestions (build_response user_text))
      <-> Re.search MEDICATION_MENTION (normalize user_text) = true)
  /\ (let r := build_response "Chest pain after she took a pill" in
      response_tier r = EMERGENCY /\ In MEDICATION_NOTE (suggestions r)).
Proof.
  split.
  - intros user_text. rewrite suggestions_blocks.
    change (mentions_meds (build_response user_text))
      with (Re.search MEDICATION_MENTION (normalize user_text)).
    unfold before_divider. rewrite !in_app_iff, !in_block. split.
    + intros H.
      repeat match goal with
             | H : _ \/ _ |- _ => destruct H as [H | H]
             | H : _ /\ _ |- _ => destruct H as [? H]
             end;
        try absurd_member.
      simpl in H. destruct H as [_ | []]. assumption.
    + intros H. left. right. right. left. split; [assumption | now left].
  - split; [vm_compute; reflexivity |].
    apply (proj1 (mem_In MEDICATION_NOTE _)). vm_compute. reflexivity.
Qed.

(** ** The divider *)

(** C10.  The divider ["---"] occurs exactly once among the suggestions,
    directly before the header of the general steps, and the list has at
    least six elements. *)
Theorem divider_exactly_once :
  forall user_text : string,
    let s := suggestions (build_response user_text) in
    count_occ string_dec s DIVIDER = 1
    /\ (exists pre : list string,
           s = (pre ++ DIVIDER :: GENERAL_HEADER :: bullets GENERAL_STEPS)%list
           /\ ~ In DIVIDER pre)
    /\ 6 <= List.length s.
Proof.
  intros user_text s. unfold s. rewrite suggestions_blocks.
  set (pre := before_divider _ _ _ _).
  assert (Hpre : ~ In DIVIDER pre) by apply divider_not_before.
  repeat split.
  - rewrite count_occ_app.
    rewrite (proj1 (count_occ_not_In string_dec pre DIVIDER) Hpre).
    vm_compute. reflexivity.
  - exists pre. split; [reflexivity | assumption].
  - rewrite length_app.
    change (List.length GENERAL_BLOCK) with 6. lia.
Qed.

(** ** The order of the blocks *)

Lemma flat_map_filter_cons (f : string -> list string) (p : string -> bool)
      (x : string) (l : list string) :
  flat_map f (filter p (x :: l))
  = (block (p x) (f x) ++ flat_map f (filter p l))%list.
Proof.
  simpl. destruct (p x); reflexivity.
Qed.

(** C8.  The suggestions are, in this order: the emergency lines if the
    tier is EMERGENCY, the urgent lines if it is URGENT, the medication
    note if a medication is mentioned, one block per matched topic in the
    order agitation_or_anxiety, sleep, pain, memory_or_confusion,
    eating_drinking, safety, mood, caregiver_stress, and last the divider,
    the header and the four general steps. *)
Theorem suggestions_in_fixed_order :
  forall user_text : string,
    let r := build_response user_text in
    suggestions r
    = assembled_in_order (response_tier r) (mentions_meds r) (topics r)
    /\ List.length (bullets GENERAL_STEPS) = 4.
Proof.
  intros user_text r. split; [| reflexivity].
  unfold r. rewrite suggestions_blocks, response_tier_hits.
  unfold assembled_in_order, before_divider, GENERAL_BLOCK, EMISSION_ORDER.
  rewrite !flat_map_filter_cons. cbn [filter flat_map].
  change (topic_block "agitation_or_anxiety") with AGITATION_BLOCK.
  change (topic_block "sleep") with SLEEP_BLOCK.
  change (topic_block "pain") with PAIN_BLOCK.
  change (topic_block "memory_or_confusion") with MEMORY_BLOCK.
  change (topic_block "eating_drinking") with EATING_BLOCK.
  change (topic_block "safety") with SAFETY_BLOCK.
  change (topic_block "mood") with MOOD_BLOCK.
  change (topic_block "caregiver_stress") with CAREGIVER_BLOCK.
  rewrite <- !app_assoc. cbn [app].
  destruct (truthy (emergency_hits (build_response user_text)));
    destruct (truthy (urgent_hits (build_response user_text)));
    destruct (mentions_meds (build_response user_text));
    reflexivity.
Qed.

(** ** The first scenario *)

(** C2 as stated does not hold: the three topics are found, but the
    tier is not NON_URGENT. *)
Lemma scenario_1_not_non_urgent :
  ~ (let r := build_response scenario_1 in
     In "memory_or_confusion" (topics r)
     /\ In "eating_drinking" (topics r)
     /\ In "agitation_or_anxiety" (topics r)
     /\ response_tier r = NON_URGENT).
Proof.
  intros [_ [_ [_ H]]]. vm_compute in H. discriminate.
Qed.

(** C2, amended.  For the first scenario the topics are
    agitation_or_anxiety, eating_drinking and memory_or_confusion, no
    emergency rule matches, the urgent rule "Fall or head impact" matches
    (on "fell"), and the tier is URGENT. *)
Theorem scenario_1_is_urgent :
  let r := build_response scenario_1 in
  topics r = ["agitation_or_anxiety"; "eating_drinking"; "memory_or_confusion"]
  /\ emergency_hits r = []
  /\ urgent_hits r = ["Fall or head impact"]
  /\ has_tier r URGENT
  /\ response_tier r = URGENT.
Proof.
  vm_compute. repeat split.
Qed.

(** ** Empty input *)

Lemma lower_empty (s : string) : lower s = "" <-> s = "".
Proof.
  destruct s; simpl; split; congruence.
Qed.

(** C7.  When the text is empty after normalization, the run block shows
    the warning and produces no response. *)
Theorem empty_input_is_rejected :
  forall user_text now : string,
    normalize user_text = "" ->
    on_run user_text now = Warned "Please enter a brief description first."
    /\ (forall result download,
           on_run user_text now <> Generated result download).
Proof.
  intros user_text now H. unfold normalize in H.
  apply (proj1 (lower_empty _)) in H.
  assert (E : on_run user_text now
              = Warned "Please enter a brief description first.").
  { unfold on_run. rewrite H. reflexivity. }
  split; [assumption |]. intros result download. rewrite E. discriminate.
Qed.

Lemma empty_input_is_rejected_blank :
  normalize "   " = ""
  /\ on_run "   " "2026-11-04T09:30:00"
     = Warned "Please enter a brief description first."
  /\ (forall result download,
         on_run "   " "2026-11-04T09:30:00" <> Generated result download).
Proof.
  split; [reflexivity |].
  apply (empty_input_is_rejected "   " "2026-11-04T09:30:00"). reflexivity.
Defined.

(** ** Strings: append, slices, occurrences *)

Lemma append_assoc (a b c : string) : (a ++ b) ++ c = a ++ (b ++ c).
Proof.
  induction a as [| x a IH]; simpl; [reflexivity | now rewrite IH].
Qed.

Lemma append_empty_r (a : string) : a ++ "" = a.
Proof.
  induction a as [| x a IH]; simpl; [reflexivity | now rewrite IH].
Qed.

Lemma slice_to_length (n : nat) (s : string) :
  String.length (slice_to n s) = Nat.min n (String.length s).
Proof.
  unfold slice_to. revert s.
  induction n as [| n IH]; intros [| c s]; simpl; try reflexivity.
  now rewrite IH.
Qed.

Lemma slice_to_is_prefix (n : nat) (s : string) :
  exists rest : string, s = slice_to n s ++ rest.
Proof.
  unfold slice_to. revert s.
  induction n as [| n IH]; intros [| c s]; simpl.
  - now exists "".
  - now exists (String c s).
  - now exists "".
  - destruct (IH s) as [rest E]. exists rest. now rewrite <- E.
Qed.

Lemma prefix_append (x post : string) : prefix x (x ++ post) = true.
Proof.
  induction x as [| a x IH]; simpl.
  - now destruct post.
  - destruct (ascii_dec a a); [assumption | congruence].
Qed.

Lemma contains_step (x s : string) :
  contains x s
  = if prefix x s then true
    else match s with
         | String _ s' => contains x s'
         | EmptyString => false
         end.
Proof.
  destruct s; reflexivity.
Qed.

Lemma occurs_in_contains (x s : string) : occurs_in x s -> contains x s = true.
Proof.
  intros [pre [post E]]. subst s.
  induction pre as [| c pre IH]; rewrite contains_step.
  - simpl. now rewrite prefix_append.
  - change (String c pre ++ x ++ post) with (String c (pre ++ x ++ post)).
    destruct (prefix x (String c (pre ++ x ++ post))); [reflexivity | exact IH].
Qed.

Lemma not_contains (x s : string) : contains x s = false -> ~ occurs_in x s.
Proof.
  intros E H. apply occurs_in_contains in H. congruence.
Qed.

Lemma in_join (sep x : string) (l : list string) :
  In x l -> occurs_in x (join sep l).
Proof.
  unfold join. induction l as [| y l IH]; [intros [] |].
  destruct l as [| z l].
  - intros [E | []]. subst y. exists "", "". simpl.
    now rewrite append_empty_r.
  - intros [E | H].
    + subst y. exists "", (sep ++ concat sep (z :: l)). reflexivity.
    + destruct (IH H) as [pre [post E]].
      exists (y ++ sep ++ pre), post.
      change (concat sep (y :: z :: l)) with (y ++ sep ++ concat sep (z :: l)).
      rewrite E. now rewrite !append_assoc.
Qed.

(** ** The export text *)

Lemma export_loop (items acc : list string) :
  fold_left
    (fun acc item =>
       if negb (item =? DIVIDER) then list_append acc ("- " ++ item) else acc)
    items acc
  = (acc ++ bullets (filter exported items))%list.
Proof.
  revert acc. induction items as [| item items IH]; intros acc; simpl.
  - now rewrite app_nil_r.
  - rewrite IH. unfold exported at 2.
    destruct (negb (item =? DIVIDER)); [| reflexivity].
    unfold list_append, bullets. simpl. now rewrite <- app_assoc.
Qed.

(** The export opens with two heading lines, a blank line, the input
    heading and the stripped input. *)
Lemma export_text_opening (user_text now : string) (result : response) :
  exists rest : list string,
    export_text user_text now result
    = "Caregiver Support (Rule-Based Demo) — Export"
        :: ("Generated: " ++ now)
        :: ""
        :: "USER INPUT:"
        :: strip user_text
        :: rest.
Proof.
  unfold export_text.
  rewrite !append_if, export_loop.
  unfold list_append, list_extend.
  rewrite <- !app_assoc. cbn [app].
  eexists. reflexivity.
Qed.

(** C3 as stated does not hold: an input that ends in a space is not in
    the export with that space. *)
Lemma export_drops_outer_whitespace :
  ~ occurs_in "zz "
      (join nl (export_text "zz " "2026-11-04T09:30:00" (build_response "zz "))).
Proof.
  apply not_contains. vm_compute. reflexivity.
Qed.

(** C3, amended.  The export holds the user input with its leading and
    trailing whitespace removed, whole and whatever its length, as the
    fifth line; this does not depend on the response that is exported,
    hence not on the cut copy in the clinician message. *)
Theorem export_contains_stripped_input :
  forall (user_text now : string) (result : response),
    nth_error (export_text user_text now result) 4 = Some (strip user_text)
    /\ occurs_in (strip user_text)
         (join nl (export_text user_text now result)).
Proof.
  intros user_text now result.
  destruct (export_text_opening user_text now result) as [rest E].
  split.
  - rewrite E. reflexivity.
  - apply in_join. rewrite E. simpl. tauto.
Qed.

(** ** The clinician message *)

(** C4 as stated does not hold: for an input that ends in a space the
    message is not the form filled with the first 400 characters of the
    input, and those characters occur nowhere in it. *)
Lemma clinician_msg_not_raw_prefix :
  clinician_msg (build_response "zz ")
  <> CLINICIAN_HEAD ++ slice_to 400 "zz " ++ CLINICIAN_TAIL
  /\ ~ occurs_in (slice_to 400 "zz ") (clinician_msg (build_response "zz ")).
Proof.
  split.
  - apply String.eqb_neq. vm_compute. reflexivity.
  - apply not_contains. vm_compute. reflexivity.
Qed.

(** C4, amended.  The clinician message is the fixed form with a copy of
    the input put after "What happened: "; the copy is the first 400
    characters of the input with leading and trailing whitespace removed
    (all of it when that is shorter), in its original letter case. *)
Theorem clinician_msg_embeds_stripped_prefix :
  (forall user_text : string,
      let copy := slice_to 400 (strip user_text) in
      clinician_msg (build_response user_text)
      = CLINICIAN_HEAD ++ copy ++ CLINICIAN_TAIL
      /\ String.length copy = Nat.min 400 (String.length (strip user_text))
      /\ String.length copy <= 400
      /\ exists rest : string, strip user_text = copy ++ rest)
  /\ clinician_msg (build_response "  Mom FELL today  ")
     = CLINICIAN_HEAD ++ "Mom FELL today" ++ CLINICIAN_TAIL.
Proof.
  split.
  - intros user_text copy. unfold copy.
    split; [reflexivity |].
    split; [apply slice_to_length |].
    split; [rewrite slice_to_length; apply Nat.le_min_l |].
    apply slice_to_is_prefix.
  - vm_compute. reflexivity.
Qed.

(** ** The order on strings *)

Lemma ascii_compare_refl (x : ascii) : Ascii.compare x x = Eq.
Proof.
  unfold Ascii.compare. apply N.compare_refl.
Qed.

Lemma ascii_compare_lt_trans (x y z : ascii) :
  Ascii.compare x y = Lt -> Ascii.compare y z = Lt -> Ascii.compare x z = Lt.
Proof.
  unfold Ascii.compare. rewrite !N.compare_lt_iff. apply N.lt_trans.
Qed.

Lemma compare_lt_trans (a b c : string) :
  String.compare a b = Lt -> String.compare b c = Lt -> String.compare a c = Lt.
Proof.
  revert b c. induction a as [| x a IH]; intros [| y b] [| z c]; simpl;
    try congruence.
  destruct (Ascii.compare x y) eqn:Exy; try discriminate;
    destruct (Ascii.compare y z) eqn:Eyz; try discriminate; intros Hab Hbc.
  - apply Ascii.compare_eq_iff in Exy, Eyz. subst.
    rewrite ascii_compare_refl. now apply IH with b.
  - apply Ascii.compare_eq_iff in Exy. subst. now rewrite Eyz.
  - apply Ascii.compare_eq_iff in Eyz. subst. now rewrite Exy.
  - now rewrite (ascii_compare_lt_trans _ _ _ Exy Eyz).
Qed.

Lemma str_lt_trans (a b c : string) : str_lt a b -> str_lt b c -> str_lt a c.
Proof.
  unfold str_lt, String.ltb. intros Hab Hbc.
  destruct (String.compare a b) eqn:Eab; try discriminate.
  destruct (String.compare b c) eqn:Ebc; try discriminate.
  now rewrite (compare_lt_trans _ _ _ Eab Ebc).
Qed.

Lemma str_lt_irrefl (a : string) : ~ str_lt a a.
Proof.
  unfold str_lt, String.ltb. intros H.
  assert (E : String.compare a a = CompOpp (String.compare a a))
    by apply String.compare_antisym.
  destruct (String.compare a a); simpl in E; discriminate.
Qed.

Lemma leb_neq_lt (a b : string) : (a <=? b) = true -> a <> b -> str_lt a b.
Proof.
  unfold str_lt, String.leb, String.ltb. intros H N.
  destruct (String.compare a b) eqn:E; try discriminate; [| reflexivity].
  apply String.compare_eq_iff in E. contradiction.
Qed.

Lemma leb_false_lt (a b : string) : (a <=? b) = false -> str_lt b a.
Proof.
  unfold str_lt, String.leb, String.ltb. intros H.
  rewrite String.compare_antisym.
  destruct (String.compare a b); try discriminate. reflexivity.
Qed.

(** ** sorted(set(...)) *)

Lemma insert_sorted_In (x y : string) (l : list string) :
  In y (insert_sorted x l) <-> y = x \/ In y l.
Proof.
  induction l as [| z l IH]; simpl.
  - intuition congruence.
  - destruct (x <=? z); simpl; rewrite ?IH; intuition congruence.
Qed.

Lemma sorted_In (y : string) (l : list string) : In y (sorted l) <-> In y l.
Proof.
  unfold sorted. induction l as [| x l IH]; simpl; [tauto |].
  rewrite insert_sorted_In, IH. intuition congruence.
Qed.

Lemma insert_sorted_strongly (x : string) (l : list string) :
  ~ In x l ->
  StronglySorted str_lt l -> StronglySorted str_lt (insert_sorted x l).
Proof.
  intros Hx Hl. induction Hl as [| z l Hl IH Hz]; simpl.
  - constructor; constructor.
  - destruct (x <=? z) eqn:E.
    + assert (Hxz : str_lt x z).
      { apply leb_neq_lt; [assumption |]. intros ->. apply Hx. now left. }
      constructor; [now constructor |].
      constructor; [assumption |].
      rewrite Forall_forall in *. intros w Hw.
      apply str_lt_trans with z; auto.
    + constructor.
      * apply IH. intros H. apply Hx. now right.
      * rewrite Forall_forall in *. intros w Hw.
        apply insert_sorted_In in Hw. destruct Hw as [-> | Hw]; auto.
        now apply leb_false_lt.
Qed.

Lemma sorted_strongly (l : list string) :
  NoDup l -> StronglySorted str_lt (sorted l).
Proof.
  unfold sorted. induction 1 as [| x l Hx Hl IH]; simpl.
  - constructor.
  - apply insert_sorted_strongly; [| assumption].
    intros H. apply Hx. now apply sorted_In.
Qed.

Lemma strongly_sorted_NoDup (l : list string) :
  StronglySorted str_lt l -> NoDup l.
Proof.
  induction 1 as [| x l Hl IH Hx]; constructor; [| assumption].
  intros H. rewrite Forall_forall in Hx.
  exact (str_lt_irrefl x (Hx x H)).
Qed.

(** ** Topic detection *)

Lemma try_variants_stops (pats : list string) (text : string) :
  stops_at_first_hit pats text
    (fst (try_variants pats text)) (snd (try_variants pats text)).
Proof.
  induction pats as [| pat rest IH]; simpl.
  - right. repeat split. constructor.
  - destruct (Re.search pat text) eqn:E; simpl.
    + left. split; [reflexivity |].
      exists [], pat, rest. repeat split; [assumption | constructor].
    + destruct (try_variants rest text) as [tested hit]. simpl in *.
      destruct IH as [[Hh [before [p [after [H1 [H2 [H3 H4]]]]]]]
                     | [Hh [H1 H2]]].
      * left. split; [assumption |].
        exists (pat :: before), p, after. subst. repeat split; auto.
      * right. subst. repeat split; auto.
Qed.

Section Collect.

Variable text : string.

Lemma collect_topics_acc (table : list (string * list string)) :
  forall acc,
    fold_left
      (fun topics entry =>
         let '(topic, pats) := entry in
         if snd (try_variants pats text) then list_append topics topic
         else topics)
      table acc
    = (acc ++ map fst (filter (topic_hit text) table))%list.
Proof.
  induction table as [| [topic pats] rest IH]; intros acc; simpl.
  - now rewrite app_nil_r.
  - rewrite IH. unfold topic_hit at 2. simpl.
    destruct (snd (try_variants pats text)); [| reflexivity].
    unfold list_append. simpl. now rewrite <- app_assoc.
Qed.

(** The topics in table order, each entry that hits once. *)
Lemma collect_topics_filter (table : list (string * list string)) :
  collect_topics table text = map fst (filter (topic_hit text) table).
Proof.
  unfold collect_topics. now rewrite collect_topics_acc.
Qed.

Variable table : list (string * list string).
Hypothesis keys_once : NoDup (map fst table).

Lemma collect_topics_count (entry : string * list string) :
  In entry table ->
  count_occ string_dec (collect_topics table text) (fst entry)
  = if topic_hit text entry then 1 else 0.
Proof.
  rewrite collect_topics_filter. clear - keys_once.
  induction table as [| e rest IH]; [intros [] |].
  simpl in keys_once. inversion keys_once as [| k ks Hk Hks]; subst.
  assert (Hout : forall f,
             count_occ string_dec (map fst (filter f rest)) (fst e) = 0).
  { intros f. apply count_occ_not_In. intros H. apply Hk.
    apply in_map_iff in H. destruct H as [y [Ey Hy]].
    apply filter_In in Hy. apply in_map_iff. exists y. tauto. }
  intros [E | H].
  - subst entry. simpl. destruct (topic_hit text e); simpl.
    + destruct (string_dec (fst e) (fst e)); [| congruence].
      now rewrite Hout.
    + apply Hout.
  - assert (N : fst e <> fst entry).
    { intros E. apply Hk. rewrite E. now apply in_map. }
    simpl. destruct (topic_hit text e); simpl.
    + destruct (string_dec (fst e) (fst entry)); [contradiction |].
      now apply IH.
    + now apply IH.
Qed.

End Collect.

Lemma topic_keys_once : NoDup (map fst TOPIC_KEYWORDS).
Proof.
  assert (E : nodup string_dec (map fst TOPIC_KEYWORDS)
              = map fst TOPIC_KEYWORDS) by (vm_compute; reflexivity).
  rewrite <- E. apply NoDup_nodup.
Qed.

(** C6.  For every text: the inner loop over the variants of a topic
    stops at the first variant that matches and tests no variant after
    it; every topic of the table is appended once if one of its variants
    matches and not at all otherwise; and what detect_topics returns is
    strictly ascending in the order of strings, hence free of duplicates,
    and has the collected topics as its elements. *)
Theorem topics_once_and_sorted :
  forall text : string,
    (forall pats : list string,
        stops_at_first_hit pats text
          (fst (try_variants pats text)) (snd (try_variants pats text)))
    /\ Forall
         (fun entry =>
            count_occ string_dec (collect_topics TOPIC_KEYWORDS text)
              (fst entry)
            = if snd (try_variants (snd entry) text) then 1 else 0)
         TOPIC_KEYWORDS
    /\ StronglySorted str_lt (detect_topics text)
    /\ NoDup (detect_topics text)
    /\ (forall topic : string,
           In topic (detect_topics text)
           <-> In topic (collect_topics TOPIC_KEYWORDS text)).
Proof.
  intros text.
  assert (Hs : StronglySorted str_lt (detect_topics text)).
  { unfold detect_topics, set_of. apply sorted_strongly, NoDup_nodup. }
  split; [intros pats; apply try_variants_stops |].
  split.
  { apply Forall_forall. intros entry H.
    apply (collect_topics_count text TOPIC_KEYWORDS topic_keys_once entry H). }
  split; [exact Hs |].
  split; [now apply strongly_sorted_NoDup |].
  intros topic. unfold detect_topics, set_of.
  rewrite sorted_In. apply nodup_In.
Qed.

(** ** Letter case and outer whitespace *)

Lemma lower_keeps_space (c : ascii) :
  Char.is_space (Char.lower c) = Char.is_space c.
Proof.
  destruct c as [b0 b1 b2 b3 b4 b5 b6 b7];
    destruct b0, b1, b2, b3, b4, b5, b6, b7; vm_compute; reflexivity.
Qed.

Lemma same_case_same_space (c d : ascii) :
  Char.lower c = Char.lower d -> Char.is_space c = Char.is_space d.
Proof.
  intros E. rewrite <- (lower_keeps_space c), <- (lower_keeps_space d).
  now rewrite E.
Qed.

Lemma lstrip_all_space (l s : string) :
  all_space l = true -> lstrip (l ++ s) = lstrip s.
Proof.
  induction l as [| c l IH]; simpl; [reflexivity |].
  destruct (Char.is_space c); [assumption | discriminate].
Qed.

Lemma rstrip_only_space (r : string) : all_space r = true -> rstrip r = "".
Proof.
  induction r as [| c r IH]; simpl; [reflexivity |].
  destruct (Char.is_space c); [| discriminate].
  intros H. now rewrite (IH H).
Qed.

Lemma rstrip_all_space (s r : string) :
  all_space r = true -> rstrip (s ++ r) = rstrip s.
Proof.
  intros H. induction s as [| c s IH]; simpl.
  - now apply rstrip_only_space.
  - now rewrite IH.
Qed.

Lemma strip_trailing_space (c r : string) :
  all_space r = true -> strip (c ++ r) = strip c.
Proof.
  intros H. unfold strip. induction c as [| x c IH]; simpl.
  - rewrite <- (append_empty_r r), (lstrip_all_space r "" H). reflexivity.
  - destruct (Char.is_space x); [assumption |].
    now apply (rstrip_all_space (String x c) r).
Qed.

Lemma strip_outer_space (l c r : string) :
  all_space l = true -> all_space r = true -> strip (l ++ c ++ r) = strip c.
Proof.
  intros Hl Hr. rewrite <- (strip_trailing_space c r Hr).
  unfold strip. now rewrite lstrip_all_space.
Qed.

Lemma same_letters_cons (c d : ascii) (a b : string) :
  same_letters (String c a) (String d b) = true
  <-> Char.lower c = Char.lower d /\ same_letters a b = true.
Proof.
  simpl. destruct (Ascii.eqb_spec (Char.lower c) (Char.lower d)).
  - tauto.
  - split; [discriminate | tauto].
Qed.

Lemma same_letters_lower (a b : string) :
  same_letters a b = true -> lower a = lower b.
Proof.
  revert b. induction a as [| c a IH]; intros [| d b]; try discriminate.
  - reflexivity.
  - intros H. apply same_letters_cons in H. destruct H as [E H].
    simpl. now rewrite E, (IH b H).
Qed.

Lemma same_letters_lstrip (a b : string) :
  same_letters a b = true -> same_letters (lstrip a) (lstrip b) = true.
Proof.
  revert b. induction a as [| c a IH]; intros [| d b]; try discriminate.
  - reflexivity.
  - intros H. pose proof H as H0.
    apply same_letters_cons in H. destruct H as [E H].
    simpl lstrip. rewrite (same_case_same_space c d E).
    destruct (Char.is_space d); [now apply IH | exact H0].
Qed.

Lemma same_letters_rstrip (a b : string) :
  same_letters a b = true -> same_letters (rstrip a) (rstrip b) = true.
Proof.
  revert b. induction a as [| c a IH]; intros [| d b]; try discriminate.
  - reflexivity.
  - intros H. apply same_letters_cons in H. destruct H as [E H].
    specialize (IH b H). simpl rstrip.
    rewrite (same_case_same_space c d E).
    destruct (rstrip a) as [| x ra], (rstrip b) as [| y rb];
      try discriminate.
    + destruct (Char.is_space d); [reflexivity |].
      apply same_letters_cons. now split.
    + apply same_letters_cons. now split.
Qed.

(** Variations have the same normalized text. *)
Lemma normalize_variation (a b : string) :
  variation a b -> normalize a = normalize b.
Proof.
  intros [la [ca [ra [lb [cb [rb [Ea [Eb [Hla [Hra [Hlb [Hrb H]]]]]]]]]]]].
  subst a b. unfold normalize.
  rewrite !strip_outer_space by assumption.
  apply same_letters_lower. unfold strip.
  now apply same_letters_rstrip, same_letters_lstrip.
Qed.

(** C9.  Two texts that differ only in letter case and in leading or
    trailing whitespace get the same emergency flags, urgent flags,
    topics, medication mention and urgency tier (label and colour). *)
Theorem matching_ignores_case_and_outer_space :
  forall a b : string,
    variation a b ->
    emergency_hits (build_response a) = emergency_hits (build_response b)
    /\ urgent_hits (build_response a) = urgent_hits (build_response b)
    /\ topics (build_response a) = topics (build_response b)
    /\ mentions_meds (build_response a) = mentions_meds (build_response b)
    /\ urgency (build_response a) = urgency (build_response b)
    /\ urgency_color (build_response a) = urgency_color (build_response b)
    /\ response_tier (build_response a) = response_tier (build_response b).
Proof.
  intros a b H. apply normalize_variation in H.
  unfold response_tier, build_response;
    cbn [emergency_hits urgent_hits topics mentions_meds urgency
           urgency_color].
  rewrite H. repeat split; reflexivity.
Qed.

Lemma matching_ignores_case_and_outer_space_chest_pain :
  variation "  Chest PAIN after a Pill " "chest pain after a pill"
  /\ emergency_hits (build_response "  Chest PAIN after a Pill ")
     = emergency_hits (build_response "chest pain after a pill")
  /\ urgent_hits (build_response "  Chest PAIN after a Pill ")
     = urgent_hits (build_response "chest pain after a pill")
  /\ topics (build_response "  Chest PAIN after a Pill ")
     = topics (build_response "chest pain after a pill")
  /\ mentions_meds (build_response "  Chest PAIN after a Pill ")
     = mentions_meds (build_response "chest pain after a pill")
  /\ urgency (build_response "  Chest PAIN after a Pill ")
     = urgency (build_response "chest pain after a pill")
  /\ urgency_color (build_response "  Chest PAIN after a Pill ")
     = urgency_color (build_response "chest pain after a pill")
  /\ response_tier (build_response "  Chest PAIN after a Pill ")
     = response_tier (build_response "chest pain after a pill").
Proof.
  assert (H : variation "  Chest PAIN after a Pill " "chest pain after a pill").
  { exists "  ", "Chest PAIN after a Pill", " ",
      "", "chest pain after a pill", "".
    repeat split; reflexivity. }
  split; [exact H |].
  apply (matching_ignores_case_and_outer_space
           "  Chest PAIN after a Pill " "chest pain after a pill" H).
Defined.

(** * Further properties of the code *)

(** ** str.strip and str.lower *)

Lemma lower_char_idem (c : ascii) : Char.lower (Char.lower c) = Char.lower c.
Proof.
  destruct c as [b0 b1 b2 b3 b4 b5 b6 b7];
    destruct b0, b1, b2, b3, b4, b5, b6, b7; vm_compute; reflexivity.
Qed.


Lemma lower_idem (s : string) : lower (lower s) = lower s.
Proof.
  induction s as [| c s IH]; simpl; [reflexivity |].
  now rewrite lower_char_idem, IH.
Qed.


Lemma lstrip_lower (s : string) : lstrip (lower s) = lower (lstrip s).
Proof.
  induction s as [| c s IH]; simpl; [reflexivity |].
  rewrite lower_keeps_space. destruct (Char.is_space c); [assumption |].
  reflexivity.
Qed.

Lemma rstrip_lower (s : string) : rstrip (lower s) = lower (rstrip s).
Proof.
  induction s as [| c s IH]; simpl; [reflexivity |].
  rewrite IH, lower_keeps_space.
  destruct (rstrip s); simpl; [| reflexivity].
  destruct (Char.is_space c); reflexivity.
Qed.

Lemma strip_lower (s : string) : strip (lower s) = lower (strip s).
Proof.
  unfold strip. now rewrite lstrip_lower, rstrip_lower.
Qed.

Lemma all_space_app (a b : string) :
  all_space (a ++ b) = all_space a && all_space b.
Proof.
  induction a as [| c a IH]; simpl; [reflexivity |].
  destruct (Char.is_space c); [assumption | reflexivity].
Qed.

Lemma lstrip_split (s : string) :
  exists l : string, s = l ++ lstrip s /\ all_space l = true.
Proof.
  induction s as [| c s [l [E H]]]; simpl.
  - now exists "".
  - destruct (Char.is_space c) eqn:Ec.
    + exists (String c l). simpl. rewrite Ec. now rewrite <- E.
    + now exists "".
Qed.

Lemma rstrip_split (s : string) :
  exists r : string, s = rstrip s ++ r /\ all_space r = true.
Proof.
  induction s as [| c s [r [E H]]]; simpl.
  - now exists "".
  - destruct (rstrip s) as [| x t] eqn:Er.
    + simpl in E. subst s. destruct (Char.is_space c) eqn:Ec.
      * exists (String c r). simpl. now rewrite Ec.
      * exists r. now split.
    + exists r. split; [| assumption]. simpl. simpl in E. now rewrite <- E.
Qed.

Lemma lstrip_first_clean (s : string) :
  clean_end (first_char (lstrip s)) = true.
Proof.
  induction s as [| c s IH]; simpl; [reflexivity |].
  destruct (Char.is_space c) eqn:Ec; [assumption |].
  simpl. now rewrite Ec.
Qed.

Lemma rstrip_first_clean (s : string) :
  clean_end (first_char s) = true -> clean_end (first_char (rstrip s)) = true.
Proof.
  destruct s as [| c s]; simpl; [reflexivity |].
  intros H. destruct (rstrip s); simpl; [| exact H].
  destruct (Char.is_space c) eqn:Ec; simpl; [reflexivity | now rewrite Ec].
Qed.

Lemma rstrip_last_clean (s : string) :
  clean_end (last_char (rstrip s)) = true.
Proof.
  induction s as [| c s IH]; simpl; [reflexivity |].
  destruct (rstrip s) as [| x t].
  - destruct (Char.is_space c) eqn:Ec; simpl; [reflexivity | now rewrite Ec].
  - exact IH.
Qed.

Lemma lstrip_clean (s : string) :
  clean_end (first_char s) = true -> lstrip s = s.
Proof.
  destruct s as [| c s]; simpl; [reflexivity |].
  destruct (Char.is_space c); [discriminate | reflexivity].
Qed.

Lemma rstrip_clean (s : string) :
  clean_end (last_char s) = true -> rstrip s = s.
Proof.
  induction s as [| c s IH]; [reflexivity |].
  destruct s as [| d s].
  - simpl. destruct (Char.is_space c); [discriminate | reflexivity].
  - intros H. change (last_char (String c (String d s)))
      with (last_char (String d s)) in H.
    specialize (IH H).
    change (rstrip (String c (String d s)))
      with (match rstrip (String d s) with
            | EmptyString =>
                if Char.is_space c then EmptyString else String c EmptyString
            | String x t => String c (String x t)
            end).
    now rewrite IH.
Qed.

Lemma strip_trimmed (s : string) : trimmed (strip s).
Proof.
  unfold trimmed, strip. split.
  - apply rstrip_first_clean, lstrip_first_clean.
  - apply rstrip_last_clean.
Qed.

Lemma strip_fixed (s : string) : trimmed s -> strip s = s.
Proof.
  intros [H1 H2]. unfold strip. rewrite (lstrip_clean s H1).
  now apply rstrip_clean.
Qed.

Lemma strip_empty_iff (s : string) : strip s = "" <-> all_space s = true.
Proof.
  split.
  - intros E. destruct (lstrip_split s) as [l [El Hl]].
    destruct (rstrip_split (lstrip s)) as [r [Er Hr]].
    unfold strip in E. rewrite E in Er. simpl in Er.
    rewrite El, Er, all_space_app, Hl, Hr. reflexivity.
  - intros H. rewrite <- (append_empty_r s).
    change (s ++ "") with (s ++ "" ++ "").
    now rewrite (strip_outer_space s "" "" H eq_refl).
Qed.

(** X1.  strip removes whitespace at the two ends and nothing else: the
    text is its stripped form between two runs of whitespace, the
    stripped form neither starts nor ends with whitespace, and it is
    empty exactly when the text is whitespace only. *)
Theorem strip_removes_outer_whitespace_only :
  forall s : string,
    (exists l r : string,
        s = l ++ strip s ++ r /\ all_space l = true /\ all_space r = true)
    /\ trimmed (strip s)
    /\ (strip s = "" <-> all_space s = true).
Proof.
  intros s. split; [| split; [apply strip_trimmed | apply strip_empty_iff]].
  destruct (lstrip_split s) as [l [El Hl]].
  destruct (rstrip_split (lstrip s)) as [r [Er Hr]].
  exists l, r. unfold strip. now rewrite <- Er, <- El.
Qed.

(** X2.  normalize is idempotent, and so are strip and lower; strip and
    lower commute. *)
Theorem normalize_idempotent :
  forall s : string,
    normalize (normalize s) = normalize s
    /\ strip (strip s) = strip s
    /\ lower (lower s) = lower s
    /\ strip (lower s) = lower (strip s).
Proof.
  intros s.
  assert (Hs : strip (strip s) = strip s)
    by apply strip_fixed, strip_trimmed.
  repeat split; [| exact Hs | apply lower_idem | apply strip_lower].
  unfold normalize. now rewrite strip_lower, Hs, lower_idem.
Qed.

(** ** The guard of the run block *)

Lemma blank_test (s : string) :
  negb (truthy_str (strip s)) = all_space s.
Proof.
  destruct (all_space s) eqn:E.
  - apply strip_empty_iff in E. now rewrite E.
  - destruct (strip s) eqn:Es; [| reflexivity].
    apply strip_empty_iff in Es. congruence.
Qed.

(** X3.  The run block shows the warning, and nothing else, exactly for
    the inputs that are empty or whitespace only; for every other input
    it builds the response of that input and offers its export. *)
Theorem run_block_guard :
  forall user_text now : string,
    on_run user_text now
    = (if all_space user_text
       then Warned "Please enter a brief description first."
       else Generated (build_response user_text)
              (join nl (export_text user_text now (build_response user_text))))
    /\ (all_space user_text = true
        <-> run_block user_text now
            = [st_warning "Please enter a brief description first."]).
Proof.
  intros user_text now. unfold on_run, run_block. rewrite blank_test.
  split; [reflexivity |].
  destruct (all_space user_text); split; try reflexivity; try discriminate.
  unfold list_append. intros H.
  apply (app_inj_tail _ []) in H. destruct H as [_ H]. discriminate.
Qed.

(** ** re.IGNORECASE *)









(** ** The flags *)

Lemma filter_shorter {A} (f : A -> bool) (l : list A) :
  List.length (filter f l) <= List.length l.
Proof.
  induction l as [| x l IH]; simpl; [lia |].
  destruct (f x); simpl; lia.
Qed.

Lemma NoDup_map_filter {A B} (g : A -> B) (f : A -> bool) (l : list A) :
  NoDup (map g l) -> NoDup (map g (filter f l)).
Proof.
  induction l as [| x l IH]; simpl; [trivial |].
  intros H. inversion H as [| y ys Hx Hl]; subst.
  destruct (f x); simpl; [| now apply IH].
  constructor; [| now apply IH].
  intros Hin. apply Hx. apply in_map_iff in Hin.
  destruct Hin as [z [Ez Hz]]. apply filter_In in Hz.
  apply in_map_iff. exists z. tauto.
Qed.

Lemma NoDup_map_injective {A B} (g : A -> B) (l : list A) (a b : A) :
  NoDup (map g l) -> In a l -> In b l -> g a = g b -> a = b.
Proof.
  induction l as [| x l IH]; simpl; [tauto |].
  intros H. inversion H as [| y ys Hx Hl]; subst.
  intros [Ea | Ha] [Eb | Hb] E; subst; auto.
  - exfalso. apply Hx. rewrite E. now apply in_map.
  - exfalso. apply Hx. rewrite <- E. now apply in_map.
Qed.

Section Flags.

Variable patterns : list (string * string).
Hypothesis labels_once : NoDup (map snd patterns).
Variable text : string.

Lemma hit_iff_rule_matches (rule : string * string) :
  In rule patterns ->
  In (snd rule) (find_matches patterns text)
  <-> Re.search (fst rule) text = true.
Proof.
  intros Hr. rewrite find_matches_filter, in_map_iff. split.
  - intros [rule' [E H]]. apply filter_In in H. destruct H as [Hin Hf].
    rewrite <- (NoDup_map_injective snd patterns rule' rule
                  labels_once Hin Hr E).
    exact Hf.
  - intros H. exists rule. split; [reflexivity |].
    apply filter_In. now split.
Qed.

Lemma hits_once : NoDup (find_matches patterns text).
Proof.
  rewrite find_matches_filter. now apply NoDup_map_filter.
Qed.

Lemma hits_at_most_rules :
  List.length (find_matches patterns text) <= List.length patterns.
Proof.
  rewrite find_matches_filter, length_map. apply filter_shorter.
Qed.

End Flags.

Lemma emergency_labels_once : NoDup (map snd EMERGENCY_PATTERNS).
Proof.
  assert (E : nodup string_dec (map snd EMERGENCY_PATTERNS)
              = map snd EMERGENCY_PATTERNS) by (vm_compute; reflexivity).
  rewrite <- E. apply NoDup_nodup.
Qed.

Lemma urgent_labels_once : NoDup (map snd URGENT_PATTERNS).
Proof.
  assert (E : nodup string_dec (map snd URGENT_PATTERNS)
              = map snd URGENT_PATTERNS) by (vm_compute; reflexivity).
  rewrite <- E. apply NoDup_nodup.
Qed.

(** X5.  The emergency and urgent flags of a response are the labels of
    the rules that match the normalized text, in the order of the tables:
    a label is reported exactly when its rule matches, no label is
    reported twice, and there are at most 8 emergency and 5 urgent
    flags. *)
Theorem flags_follow_the_tables :
  forall user_text : string,
    let r := build_response user_text in
    let t := normalize user_text in
    emergency_hits r = map snd (filter (rule_hit t) EMERGENCY_PATTERNS)
    /\ urgent_hits r = map snd (filter (rule_hit t) URGENT_PATTERNS)
    /\ Forall (fun rule =>
                 In (snd rule) (emergency_hits r)
                 <-> Re.search (fst rule) t = true) EMERGENCY_PATTERNS
    /\ Forall (fun rule =>
                 In (snd rule) (urgent_hits r)
                 <-> Re.search (fst rule) t = true) URGENT_PATTERNS
    /\ NoDup (emergency_hits r) /\ NoDup (urgent_hits r)
    /\ List.length (emergency_hits r) <= 8
    /\ List.length (urgent_hits r) <= 5.
Proof.
  intros user_text r t.
  change (emergency_hits r) with (find_matches EMERGENCY_PATTERNS t).
  change (urgent_hits r) with (find_matches URGENT_PATTERNS t).
  split; [apply find_matches_filter |].
  split; [apply find_matches_filter |].
  split.
  { apply Forall_forall. intros rule H.
    now apply hit_iff_rule_matches; [apply emergency_labels_once |]. }
  split.
  { apply Forall_forall. intros rule H.
    now apply hit_iff_rule_matches; [apply urgent_labels_once |]. }
  split; [apply hits_once, emergency_labels_once |].
  split; [apply hits_once, urgent_labels_once |].
  split.
  - apply (hits_at_most_rules EMERGENCY_PATTERNS t).
  - apply (hits_at_most_rules URGENT_PATTERNS t).
Qed.

(** ** Which block a suggestion line comes from *)

Lemma NoDup_app_disjoint {A} (l l' : list A) (a : A) :
  NoDup (l ++ l') -> In a l -> In a l' -> False.
Proof.
  induction l as [| x l IH]; simpl; [tauto |].
  intros H Ha Ha'. inversion H as [| y ys Hx Hl]; subst.
  destruct Ha as [E | Ha].
  - subst. apply Hx, in_app_iff. now right.
  - now apply IH.
Qed.

Lemma guarded_blocks_cons (b : bool) (l : list string)
      (rest : list (bool * list string)) :
  guarded_blocks ((b, l) :: rest) = (block b l ++ guarded_blocks rest)%list.
Proof.
  reflexivity.
Qed.

Lemma guarded_blocks_sub (bs : list (bool * list string)) (x : string) :
  In x (guarded_blocks bs) -> In x (flat_map snd bs).
Proof.
  induction bs as [| [b l] rest IH]; [trivial |].
  rewrite guarded_blocks_cons. cbn [flat_map snd].
  rewrite !in_app_iff, in_block. tauto.
Qed.

Lemma guarded_blocks_NoDup (bs : list (bool * list string))
      (tail : list string) :
  NoDup (flat_map snd bs ++ tail) -> NoDup (guarded_blocks bs ++ tail).
Proof.
  induction bs as [| [b l] rest IH]; intros H; [exact H |].
  rewrite guarded_blocks_cons. cbn [flat_map snd] in H.
  rewrite <- app_assoc in *.
  pose proof (NoDup_app_remove_l _ _ H) as Hr. apply IH in Hr.
  destruct b; [| exact Hr]. unfold block.
  apply NoDup_app; [eapply NoDup_app_remove_r; exact H | exact Hr |].
  intros a Ha Hin. apply (NoDup_app_disjoint _ _ a H Ha).
  apply in_app_iff in Hin. apply in_app_iff.
  destruct Hin as [Hin | Hin]; [left; now apply guarded_blocks_sub | now right].
Qed.

Lemma guarded_line_iff (bs : list (bool * list string)) (b : bool)
      (l : list string) (x : string) :
  NoDup (flat_map snd bs) -> In (b, l) bs -> In x l ->
  In x (guarded_blocks bs) <-> b = true.
Proof.
  induction bs as [| [b0 l0] rest IH]; intros Hn Hb Hx; [destruct Hb |].
  rewrite guarded_blocks_cons, in_app_iff, in_block.
  cbn [flat_map snd] in Hn. destruct Hb as [E | Hb].
  - inversion E; subst. split; [| tauto].
    intros [[Hb _] | Hr]; [exact Hb |].
    exfalso. apply (NoDup_app_disjoint _ _ x Hn Hx).
    now apply guarded_blocks_sub.
  - assert (Hr : In x (flat_map snd rest)).
    { apply in_flat_map. exists (b, l). now split. }
    rewrite <- (IH (NoDup_app_remove_l _ _ Hn) Hb Hx). split; [| tauto].
    intros [[_ H0] | H]; [| exact H].
    exfalso. exact (NoDup_app_disjoint _ _ x Hn H0 Hr).
Qed.

Lemma before_divider_guarded (em ur meds : bool) (tp : list string) :
  before_divider em ur meds tp = guarded_blocks (guarded em ur meds tp).
Proof.
  unfold before_divider, guarded_blocks, guarded. cbn [flat_map fst snd].
  now rewrite app_nil_r.
Qed.

Lemma guarded_lines (em ur meds : bool) (tp : list string) :
  flat_map snd (guarded em ur meds tp) = every_block_line.
Proof.
  unfold every_block_line, guarded. cbn [flat_map fst snd].
  now rewrite app_nil_r.
Qed.

Lemma response_lines (r : response) :
  flat_map snd (response_blocks r) = every_block_line.
Proof.
  apply guarded_lines.
Qed.

Lemma all_lines_once : NoDup (every_block_line ++ GENERAL_BLOCK).
Proof.
  assert (E : nodup string_dec (every_block_line ++ GENERAL_BLOCK)%list
              = (every_block_line ++ GENERAL_BLOCK)%list)
    by (vm_compute; reflexivity).
  rewrite <- E. apply NoDup_nodup.
Qed.

Lemma suggestions_guarded (user_text : string) :
  suggestions (build_response user_text)
  = (guarded_blocks (response_blocks (build_response user_text))
     ++ GENERAL_BLOCK)%list.
Proof.
  rewrite suggestions_blocks. unfold response_blocks.
  now rewrite before_divider_guarded.
Qed.

(** A line of a conditional block is among the suggestions exactly when
    the condition of its block holds. *)
Lemma block_line_iff (user_text : string) (b : bool) (l : list string)
      (x : string) :
  In (b, l) (response_blocks (build_response user_text)) ->
  In x l ->
  In x (suggestions (build_response user_text)) <-> b = true.
Proof.
  intros Hb Hx. rewrite suggestions_guarded, in_app_iff.
  assert (Hl : In x every_block_line).
  { rewrite <- (response_lines (build_response user_text)).
    apply in_flat_map. exists (b, l). split; [exact Hb | exact Hx]. }
  rewrite <- (guarded_line_iff
                (response_blocks (build_response user_text)) b l x);
    [| | exact Hb | exact Hx].
  - split; [| tauto]. intros [H | H]; [exact H |].
    exfalso. exact (NoDup_app_disjoint _ _ x all_lines_once Hl H).
  - rewrite response_lines.
    exact (NoDup_app_remove_r _ _ all_lines_once).
Qed.

Lemma suggestions_once (user_text : string) :
  NoDup (suggestions (build_response user_text)).
Proof.
  rewrite suggestions_guarded. apply guarded_blocks_NoDup.
  rewrite response_lines. apply all_lines_once.
Qed.

Lemma block_length (b : bool) (l : list string) :
  List.length (block b l) <= List.length l.
Proof.
  destruct b; simpl; lia.
Qed.

(** The emergency and the urgent lines exclude each other, so at most 32
    lines stand before the divider. *)
Lemma before_divider_length (em ur meds : bool) (tp : list string) :
  List.length (before_divider em ur meds tp) <= 32.
Proof.
  unfold before_divider. rewrite !length_app.
  assert (H0 : List.length (block em EMERGENCY_LINES)
               + List.length (block (ur && negb em) URGENT_LINES) <= 3)
    by (destruct em, ur; cbv; lia).
  pose proof (block_length meds [MEDICATION_NOTE]) as H1.
  pose proof (block_length (mem "agitation_or_anxiety" tp) AGITATION_BLOCK)
    as H2.
  pose proof (block_length (mem "sleep" tp) SLEEP_BLOCK) as H3.
  pose proof (block_length (mem "pain" tp) PAIN_BLOCK) as H4.
  pose proof (block_length (mem "memory_or_confusion" tp) MEMORY_BLOCK) as H5.
  pose proof (block_length (mem "eating_drinking" tp) EATING_BLOCK) as H6.
  pose proof (block_length (mem "safety" tp) SAFETY_BLOCK) as H7.
  pose proof (block_length (mem "mood" tp) MOOD_BLOCK) as H8.
  pose proof (block_length (mem "caregiver_stress" tp) CAREGIVER_BLOCK) as H9.
  change (List.length [MEDICATION_NOTE]) with 1 in H1.
  change (List.length AGITATION_BLOCK) with 4 in H2.
  change (List.length SLEEP_BLOCK) with 4 in H3.
  change (List.length PAIN_BLOCK) with 4 in H4.
  change (List.length MEMORY_BLOCK) with 3 in H5.
  change (List.length EATING_BLOCK) with 3 in H6.
  change (List.length SAFETY_BLOCK) with 3 in H7.
  change (List.length MOOD_BLOCK) with 3 in H8.
  change (List.length CAREGIVER_BLOCK) with 4 in H9.
  lia.
Qed.

Lemma suggestions_at_most (user_text : string) :
  List.length (suggestions (build_response user_text)) <= 38.
Proof.
  rewrite suggestions_blocks, length_app.
  change (List.length GENERAL_BLOCK) with 6.
  pose proof (before_divider_length
                (truthy (emergency_hits (build_response user_text)))
                (truthy (urgent_hits (build_response user_text)))
                (mentions_meds (build_response user_text))
                (topics (build_response user_text))) as H.
  lia.
Qed.

(** ** Topics *)

Lemma try_variants_existsb (pats : list string) (text : string) :
  snd (try_variants pats text) = existsb (fun pat => Re.search pat text) pats.
Proof.
  induction pats as [| pat rest IH]; simpl; [reflexivity |].
  destruct (Re.search pat text); simpl; [reflexivity |].
  destruct (try_variants rest text) as [tested hit]. exact IH.
Qed.

Lemma detect_topics_In (text : string) (entry : string * list string) :
  In entry TOPIC_KEYWORDS ->
  In (fst entry) (detect_topics text)
  <-> existsb (fun pat => Re.search pat text) (snd entry) = true.
Proof.
  intros He. unfold detect_topics, set_of.
  rewrite sorted_In, nodup_In, collect_topics_filter, in_map_iff.
  rewrite <- try_variants_existsb. split.
  - intros [entry' [E H]]. apply filter_In in H. destruct H as [Hin Hf].
    rewrite <- (NoDup_map_injective fst TOPIC_KEYWORDS entry' entry
                  topic_keys_once Hin He E).
    exact Hf.
  - intros H. exists entry. split; [reflexivity |].
    apply filter_In. now split.
Qed.

Lemma detect_topics_known (text : string) :
  incl (detect_topics text) EMISSION_ORDER.
Proof.
  intros topic H. unfold detect_topics, set_of in H.
  rewrite sorted_In, nodup_In, collect_topics_filter, in_map_iff in H.
  destruct H as [entry [E H]]. apply filter_In in H. destruct H as [Hin _].
  apply mem_In.
  assert (Hall : forallb (fun x => mem x EMISSION_ORDER)
                   (map fst TOPIC_KEYWORDS) = true)
    by (vm_compute; reflexivity).
  rewrite forallb_forall in Hall. apply Hall.
  rewrite <- E. now apply in_map.
Qed.

Lemma detect_topics_once (text : string) : NoDup (detect_topics text).
Proof.
  apply strongly_sorted_NoDup. unfold detect_topics, set_of.
  apply sorted_strongly, NoDup_nodup.
Qed.

Lemma topic_guard_in (em ur meds : bool) (tp : list string) (topic : string) :
  In topic EMISSION_ORDER ->
  In (mem topic tp, topic_block topic) (guarded em ur meds tp).
Proof.
  unfold EMISSION_ORDER, guarded. cbn [In]. intros H.
  do 3 right.
  repeat (destruct H as [H | H];
          [subst topic; left; reflexivity | right]).
  destruct H.
Qed.

(** X6.  A topic of the keyword table is among the topics of a response
    exactly when one of its patterns matches the normalized text; every
    detected topic is one of the eight topics that have a suggestion
    block, so at most eight are detected; and each line of the block of a
    topic is among the suggestions exactly when that topic was
    detected. *)
Theorem detected_topics_get_their_block :
  forall user_text : string,
    let r := build_response user_text in
    let t := normalize user_text in
    Forall (fun entry =>
              In (fst entry) (topics r)
              <-> existsb (fun pat => Re.search pat t) (snd entry) = true)
      TOPIC_KEYWORDS
    /\ incl (topics r) EMISSION_ORDER
    /\ List.length (topics r) <= 8
    /\ Forall (fun topic =>
                 Forall (fun line =>
                           In line (suggestions r) <-> In topic (topics r))
                   (topic_block topic))
         EMISSION_ORDER.
Proof.
  intros user_text r t. subst r t.
  split.
  { apply Forall_forall. intros entry H. now apply detect_topics_In. }
  split; [apply detect_topics_known |].
  split.
  { change 8 with (List.length EMISSION_ORDER).
    apply NoDup_incl_length;
      [apply detect_topics_once | apply detect_topics_known]. }
  apply Forall_forall. intros topic Ht.
  apply Forall_forall. intros line Hl.
  rewrite <- (mem_In topic (topics (build_response user_text))).
  exact (block_line_iff user_text
           (mem topic (topics (build_response user_text)))
           (topic_block topic) line
           (topic_guard_in _ _ _ _ topic Ht) Hl).
Qed.

(** X7.  No line occurs twice among the suggestions of a response and
    there are at most 38 of them; each of the three emergency lines is
    among them exactly when the tier is EMERGENCY, and each of the two
    urgent lines exactly when the tier is URGENT.  Some text reaches the
    38 lines. *)
Theorem suggestions_without_repeats :
  (forall user_text : string,
      let r := build_response user_text in
      NoDup (suggestions r)
      /\ List.length (suggestions r) <= 38
      /\ Forall (fun line =>
                   In line (suggestions r) <-> response_tier r = EMERGENCY)
           EMERGENCY_LINES
      /\ Forall (fun line =>
                   In line (suggestions r) <-> response_tier r = URGENT)
           URGENT_LINES)
  /\ (exists user_text : string,
         List.length (suggestions (build_response user_text)) = 38).
Proof.
  split.
  2:{ exists "seizure pill agitated insomnia pain confused not eating burnout wandering sad".
      vm_compute. reflexivity. }
  intros user_text r. subst r.
  split; [apply suggestions_once |].
  split; [apply (suggestions_at_most user_text) |].
  split.
  - apply Forall_forall. intros line Hl.
    rewrite (block_line_iff user_text
               (truthy (emergency_hits (build_response user_text)))
               EMERGENCY_LINES line);
      [| left; reflexivity | exact Hl].
    rewrite response_tier_hits.
    destruct (truthy (emergency_hits (build_response user_text)));
      [tauto |].
    destruct (truthy (urgent_hits (build_response user_text)));
      split; discriminate.
  - apply Forall_forall. intros line Hl.
    rewrite (block_line_iff user_text
               (truthy (urgent_hits (build_response user_text))
                && negb (truthy (emergency_hits (build_response user_text))))
               URGENT_LINES line);
      [| right; left; reflexivity | exact Hl].
    rewrite response_tier_hits.
    destruct (truthy (emergency_hits (build_response user_text)));
      destruct (truthy (urgent_hits (build_response user_text)));
      simpl; split; (discriminate || reflexivity).
Qed.

(** ** What the page shows *)

















(** ** The suggestions on the page *)










(** ** The layout of the export *)

Lemma filter_all {A} (f : A -> bool) (l : list A) :
  (forall x, In x l -> f x = true) -> filter f l = l.
Proof.
  induction l as [| x l IH]; intros H; [reflexivity |].
  cbn [filter]. rewrite (H x (or_introl eq_refl)).
  f_equal. apply IH. intros y Hy. apply H. now right.
Qed.

(** The lines of the export, for any response. *)
Lemma export_text_layout (user_text now : string) (result : response) :
  export_text user_text now result
  = (export_head user_text now result
     ++ export_flags result
     ++ "" :: "SUGGESTIONS:" :: bullets (filter exported (suggestions result))
     ++ export_tail result)%list.
Proof.
  unfold export_text, export_head, export_flags, export_tail. cbv zeta.
  rewrite !append_if, export_loop.
  unfold list_append, list_extend.
  rewrite <- !app_assoc. cbn [app]. reflexivity.
Qed.

Lemma exported_suggestions (user_text : string) :
  let r := build_response user_text in
  filter exported (suggestions r)
  = (before_divider (truthy (emergency_hits r)) (truthy (urgent_hits r))
       (mentions_meds r) (topics r)
     ++ GENERAL_HEADER :: bullets GENERAL_STEPS)%list.
Proof.
  intros r. unfold r. rewrite suggestions_blocks, filter_app.
  f_equal.
  apply filter_all. intros x H. unfold exported.
  destruct (String.eqb_spec x DIVIDER) as [E | E]; [| reflexivity].
  subst x. now apply divider_not_before in H.
Qed.

Lemma urgency_of_response (user_text : string) :
  urgency (build_response user_text)
  = tier_label (response_tier (build_response user_text)).
Proof.
  apply response_has_its_tier.
Qed.

(** X10.  The export of a built response has its sections in a fixed
    order: the title, the time, the stripped input and the label of the
    tier; one line for each non-empty list of flags and topics; under
    SUGGESTIONS every suggestion except the divider, in the order of the
    list and each behind a dash, so that the general steps carry a
    doubled dash; then the tracking checklist and the clinician
    message. *)
Theorem export_layout :
  forall user_text now : string,
    let r := build_response user_text in
    let lines := export_text user_text now r in
    let listed :=
      (before_divider (truthy (emergency_hits r)) (truthy (urgent_hits r))
         (mentions_meds r) (topics r)
       ++ GENERAL_HEADER :: bullets GENERAL_STEPS)%list in
    lines
    = (export_head user_text now r
       ++ export_flags r
       ++ "" :: "SUGGESTIONS:" :: bullets listed
       ++ "" :: "TRACKING CHECKLIST:" :: TRACKING
       ++ [ ""; "CLINICIAN MESSAGE TEMPLATE:"; clinician_msg r ])%list
    /\ urgency r = tier_label (response_tier r)
    /\ suggestions r
       = (before_divider (truthy (emergency_hits r)) (truthy (urgent_hits r))
            (mentions_meds r) (topics r)
          ++ DIVIDER :: GENERAL_HEADER :: bullets GENERAL_STEPS)%list
    /\ Forall (fun step => In ("- - " ++ step) lines) GENERAL_STEPS.
Proof.
  intros user_text now r lines listed. subst lines listed r.
  assert (E : export_text user_text now (build_response user_text)
              = (export_head user_text now (build_response user_text)
                 ++ export_flags (build_response user_text)
                 ++ "" :: "SUGGESTIONS:"
                 :: bullets
                      (before_divider
                         (truthy (emergency_hits (build_response user_text)))
                         (truthy (urgent_hits (build_response user_text)))
                         (mentions_meds (build_response user_text))
                         (topics (build_response user_text))
                       ++ GENERAL_HEADER :: bullets GENERAL_STEPS)
                 ++ "" :: "TRACKING CHECKLIST:" :: TRACKING
                 ++ [ ""; "CLINICIAN MESSAGE TEMPLATE:";
                      clinician_msg (build_response user_text) ])%list).
  { rewrite export_text_layout, exported_suggestions. reflexivity. }
  split; [exact E |].
  split; [apply urgency_of_response |].
  split; [apply suggestions_blocks |].
  apply Forall_forall. intros step H. rewrite E.
  apply in_app_iff. right. apply in_app_iff. right. right. right.
  apply in_app_iff. left. unfold bullets at 1.
  apply in_map_iff. exists ("- " ++ step). split; [reflexivity |].
  apply in_app_iff. right. right.
  unfold bullets. apply in_map_iff. exists step. now split.
Qed.

(** ** Blank text *)

Lemma blank_is_stripped_away (s : string) :
  all_space s = true -> strip s = "" /\ normalize s = "".
Proof.
  intros H. apply strip_empty_iff in H. unfold normalize. now rewrite H.
Qed.

(** X11.  build_response has no guard of its own: for an empty or
    whitespace-only text it returns a response without flags, topics or
    medication mention, of tier NON_URGENT, whose suggestions are the
    divider, the header and the four general steps, and whose clinician
    message has an empty "What happened" field. *)
Theorem blank_text_gets_general_steps_only :
  forall user_text : string,
    all_space user_text = true ->
    let r := build_response user_text in
    emergency_hits r = []
    /\ urgent_hits r = []
    /\ topics r = []
    /\ mentions_meds r = false
    /\ response_tier r = NON_URGENT
    /\ suggestions r = GENERAL_BLOCK
    /\ clinician_msg r = CLINICIAN_HEAD ++ CLINICIAN_TAIL.
Proof.
  intros user_text H r. subst r.
  destruct (blank_is_stripped_away user_text H) as [Es En].
  unfold response_tier, build_response.
  cbn [emergency_hits urgent_hits topics mentions_meds urgency suggestions
       clinician_msg].
  rewrite En, Es. vm_compute. repeat split.
Qed.

Lemma blank_text_gets_general_steps_only_spaces :
  all_space "   " = true
  /\ (let r := build_response "   " in
      emergency_hits r = []
      /\ urgent_hits r = []
      /\ topics r = []
      /\ mentions_meds r = false
      /\ response_tier r = NON_URGENT
      /\ suggestions r = GENERAL_BLOCK
      /\ clinician_msg r = CLINICIAN_HEAD ++ CLINICIAN_TAIL).
Proof.
  split; [reflexivity |].
  apply (blank_text_gets_general_steps_only "   "). reflexivity.
Defined.

(** ** The shape of the normalized text *)












(** ** The care notes *)


(** ** What the program sees of the input *)

Lemma strip_idem (s : string) : strip (strip s) = strip s.
Proof.
  apply strip_fixed, strip_trimmed.
Qed.

Lemma normalize_lower (s : string) : normalize (lower s) = normalize s.
Proof.
  unfold normalize. now rewrite strip_lower, lower_idem.
Qed.

Lemma build_response_strip (s : string) :
  build_response (strip s) = build_response s.
Proof.
  unfold build_response, normalize. now rewrite strip_idem.
Qed.

Lemma export_text_strip (s now : string) (result : response) :
  export_text (strip s) now result = export_text s now result.
Proof.
  unfold export_text. now rewrite strip_idem.
Qed.

(** X14.  Whitespace around the input changes nothing: the stripped
    input gives the same response, field by field, the same export and
    the same page as the input itself.  Letter case changes the
    clinician message only: the lower-cased input gives the same
    urgency, flags, topics, suggestions and tracking list. *)
Theorem only_the_stripped_input_counts :
  forall user_text now : string,
    build_response (strip user_text) = build_response user_text
    /\ on_run (strip user_text) now = on_run user_text now
    /\ run_block (strip user_text) now = run_block user_text now
    /\ (let r := build_response user_text in
        let r' := build_response (lower user_text) in
        urgency r' = urgency r
        /\ urgency_color r' = urgency_color r
        /\ emergency_hits r' = emergency_hits r
        /\ urgent_hits r' = urgent_hits r
        /\ topics r' = topics r
        /\ mentions_meds r' = mentions_meds r
        /\ suggestions r' = suggestions r
        /\ tracking r' = tracking r
        /\ clinician_msg r'
           = CLINICIAN_HEAD ++ slice_to 400 (lower (strip user_text))
             ++ CLINICIAN_TAIL).
Proof.
  intros user_text now.
  split; [apply build_response_strip |].
  split.
  { unfold on_run.
    now rewrite strip_idem, build_response_strip, export_text_strip. }
  split.
  { unfold run_block.
    now rewrite strip_idem, build_response_strip, export_text_strip. }
  intros r r'. subst r r'. unfold build_response.
  cbn [urgency urgency_color emergency_hits urgent_hits topics mentions_meds
       suggestions tracking clinician_msg].
  rewrite normalize_lower, strip_lower. repeat split.
Qed.
